(** * Low Quality Website Detection Tool: the classification pipeline

    A shallow embedding of [app.py]: host normalisation ([extract_host]),
    root-domain derivation ([base_domain]), the allowlist ([TRUSTED],
    [is_trusted]), the redirect-following fetch ([fetch_final]), the content
    heuristics ([quick_risk_from_html]), the score-to-label mapping
    ([label_from_score]) and the pipeline itself ([analyze_target]).

    Modelling conventions.
    - A Python [str] is a list of code points; the code points are those
      below 256 (Rocq's [ascii]), on which [str.lower], [str.isspace] and
      friends are written out as CPython computes them.
    - A Python exception is a value [Exn cls msg]; code that may raise lives
      in the monad [res], and [try ... except Exception] is [try_except].
    - [requests.get] is an oracle that answers a URL, given the requests
      made before, with a response or an exception; every call is appended
      to a log that the monad [net] threads through, so that "no fetch was
      performed" is a statement about the log.
    - [urllib.parse.urlparse] and the text extraction of BeautifulSoup are
      library code, which returns or raises: the development is parametric
      in them (Section variables); a transcription of CPython's [urlparse]
      follows the pipeline, to run it on concrete inputs. *)

From stdpp Require Import gmap strings list pretty.
From Stdlib Require Import ZArith Ascii Lia.

Set Warnings "-register-all".

(** ** Python strings *)

Definition str : Type := list ascii.

(** A string literal of the source. *)
Definition py (s : string) : str := String.list_ascii_of_string s.

Definition ord (c : ascii) : N := N_of_ascii c.

(** [str.isspace] on one code point below 256: TAB..CR, FS..US, SPACE,
    NEL and NBSP. *)
Definition isspace (c : ascii) : bool :=
  let n := ord c in
  ((9 <=? n) && (n <=? 13) || (28 <=? n) && (n <=? 32) || (n =? 133) || (n =? 160))%N.

(** [str.lower] on one code point below 256: A..Z and the Latin-1 capitals
    (all of 0xC0..0xDE but the multiplication sign) move up by 32. *)
Definition lower_char (c : ascii) : ascii :=
  let n := ord c in
  if ((65 <=? n) && (n <=? 90) || (192 <=? n) && (n <=? 222) && negb (n =? 215))%N
  then ascii_of_N (n + 32) else c.

Definition lower (s : str) : str := map lower_char s.

(** Truthiness of a [str]: the empty string is falsy. *)
Definition truthy (s : str) : bool :=
  match s with [] => false | _ :: _ => true end.

(** [x or ""] for a value that is a [str] or [None]. *)
Definition or_empty (x : option str) : str :=
  match x with Some s => s | None => [] end.

Fixpoint drop_while (p : ascii → bool) (s : str) : str :=
  match s with
  | [] => []
  | c :: s' => if p c then drop_while p s' else s
  end.

Definition lstrip_by (p : ascii → bool) (s : str) : str := drop_while p s.
Definition rstrip_by (p : ascii → bool) (s : str) : str :=
  reverse (drop_while p (reverse s)).

(** [s.strip()] and [s.strip(c)] for a one-character argument. *)
Definition strip_by (p : ascii → bool) (s : str) : str := rstrip_by p (lstrip_by p s).
Definition strip (s : str) : str := strip_by isspace s.
Definition strip_char (c : ascii) (s : str) : str := strip_by (Ascii.eqb c) s.

(** [s.startswith(prefix)]. *)
Fixpoint startswith (prefix s : str) : bool :=
  match prefix, s with
  | [], _ => true
  | _ :: _, [] => false
  | a :: prefix', b :: s' => Ascii.eqb a b && startswith prefix' s'
  end.

(** [needle in hay]. *)
Fixpoint contains (needle hay : str) : bool :=
  startswith needle hay ||
  match hay with
  | [] => false
  | _ :: hay' => contains needle hay'
  end.

(** [s.split(sep)] for a one-character separator: never the empty list. *)
Fixpoint split (sep : ascii) (s : str) : list str :=
  match s with
  | [] => [[]]
  | c :: s' =>
      if Ascii.eqb c sep then [] :: split sep s'
      else match split sep s' with
           | p :: ps => (c :: p) :: ps
           | [] => [[c]]
           end
  end.

(** [sep.join(parts)] for a one-character separator. *)
Fixpoint join (sep : ascii) (parts : list str) : str :=
  match parts with
  | [] => []
  | [p] => p
  | p :: ps => p ++ sep :: join sep ps
  end.

(** [s.split()]: the maximal runs of non-whitespace; [cur] is the run being
    read. *)
Fixpoint split_ws_from (cur : str) (s : str) : list str :=
  match s with
  | [] => if truthy cur then [cur] else []
  | c :: s' =>
      if isspace c
      then (if truthy cur then [cur] else []) ++ split_ws_from [] s'
      else split_ws_from (cur ++ [c]) s'
  end.
Definition split_ws (s : str) : list str := split_ws_from [] s.

(** [re.sub(r"\s+", " ", s)]: each maximal run of whitespace becomes one
    space; [in_run] tells that the previous code point was whitespace. *)
Fixpoint sub_ws_from (in_run : bool) (s : str) : str :=
  match s with
  | [] => []
  | c :: s' =>
      if isspace c
      then (if in_run then sub_ws_from true s' else " "%char :: sub_ws_from true s')
      else c :: sub_ws_from false s'
  end.
Definition sub_ws (s : str) : str := sub_ws_from false s.

(** [l[-n:]] for [n > 0]. *)
Definition slice_last {A} (n : nat) (l : list A) : list A := drop (length l - n) l.

(** [str(n)] and [f"{n}"] for an [int]. *)
Definition str_of_int (n : Z) : str := py (pretty n).

(** ** Python values, exceptions *)

Inductive pyval :=
| VNone
| VStr (s : str)
| VBool (b : bool)
| VInt (n : Z)
| VDict (d : gmap string pyval).

(** A dict literal [{k1: v1, ...}] with pairwise distinct keys. *)
Definition dict (items : list (string * pyval)) : gmap string pyval :=
  list_to_map items.

Definition of_opt_str (x : option str) : pyval :=
  match x with Some s => VStr s | None => VNone end.

(** [f"{x}"] for a value that is a [str] or [None]. *)
Definition format_opt (x : option str) : str :=
  match x with Some s => s | None => py "None" end.

(** Truthiness of a value that is a [str] or [None]. *)
Definition truthy_opt (x : option str) : bool :=
  match x with Some s => truthy s | None => false end.

Inductive exn := Exn (cls : string) (msg : str).

(** [str(e)]. *)
Definition exn_str (e : exn) : str := match e with Exn _ msg => msg end.

Inductive res (A : Type) : Type :=
| Ret (a : A)
| Raise (e : exn).
Arguments Ret {A} a.
Arguments Raise {A} e.

#[global] Instance res_ret : MRet res := λ A a, Ret a.
#[global] Instance res_bind : MBind res := λ A B f m,
  match m with Ret a => f a | Raise e => Raise e end.

(** [try: body except Exception as e: handler(e)]. *)
Definition try_except {A} (body : res A) (handler : exn → res A) : res A :=
  match body with Ret a => Ret a | Raise e => handler e end.

(** [l[i]], negative indices counting from the end. *)
Definition index {A} (l : list A) (i : Z) : res A :=
  let j := (if i <? 0 then i + Z.of_nat (length l) else i)%Z in
  match (if j <? 0 then None else l !! Z.to_nat j)%Z with
  | Some x => Ret x
  | None => Raise (Exn "IndexError" (py "list index out of range"))
  end.

(** ** The network *)

(** The fields of a [requests.Response] that the program reads. *)
Record response := Response {
  status_code : Z;
  text : str;
  url : str
}.

(** A computation that may call [requests.get]: it receives the URLs
    requested so far and returns them extended with its own requests. *)
Definition net (A : Type) : Type := list str → res A * list str.

#[global] Instance net_ret : MRet net := λ A a log, (Ret a, log).
#[global] Instance net_bind : MBind net := λ A B f m log,
  match m log with
  | (Ret a, log') => f a log'
  | (Raise e, log') => (Raise e, log')
  end.

Definition lift {A} (m : res A) : net A := λ log, (m, log).

Definition net_try_except {A} (body : net A) (handler : exn → net A) : net A :=
  λ log, match body log with
         | (Ret a, log') => (Ret a, log')
         | (Raise e, log') => handler e log'
         end.

(** Runs a computation from the empty log. *)
Definition run {A} (m : net A) : res A * list str := m [].

(** ** [label_from_score] *)

Definition label_from_score (score : Z) : str :=
  if (score <? 50)%Z then py "LOW_QUALITY"
  else if (score <? 60)%Z then py "SUSPICIOUS"
  else if (score >? 70)%Z then py "GOOD_SAFE"
  else py "SUSPICIOUS".

(** ** [base_domain] and the allowlist *)

Definition two_part_tlds : gset (str * str) :=
  {[ (py "co", py "uk"); (py "org", py "uk"); (py "ac", py "uk"); (py "gov", py "uk");
     (py "com", py "au"); (py "net", py "au"); (py "org", py "au"); (py "co", py "in") ]}.

(** Crude eTLD+1. The argument is a [str]; [host or ""] is then [host]. *)
Definition base_domain (host : str) : res str :=
  let host := strip_char "." (lower host) in
  let parts := split "." host in
  if bool_decide (length parts ≤ 2) then mret host
  else
    p2 ← index parts (-2);
    p1 ← index parts (-1);
    if bool_decide ((p2, p1) ∈ two_part_tlds) && bool_decide (3 ≤ length parts)
    then mret (join "." (slice_last 3 parts))
    else mret (join "." (slice_last 2 parts)).

Definition TRUSTED : gset str :=
  {[ py "youtube.com"; py "instagram.com"; py "facebook.com";
     py "google.com"; py "amazon.com"; py "linkedin.com";
     py "capitaloneshopping.com"; py "retailmenot.com";
     py "ebay.com"; py "walmart.com"; py "target.com"; py "bestbuy.com" ]}.

(** ** [urllib.parse.urlparse], as the program sees it *)

(** The six fields of a [ParseResult]. *)
Record parse_result := ParseResult {
  scheme : str;
  netloc : str;
  path : str;
  params : str;
  query : str;
  fragment : str
}.

(** The result of [quick_risk_from_html]: a dict with exactly the keys
    ["risk"] and ["signals"], read back by those keys only. *)
Record risk_result := RiskResult {
  risk : Z;
  signals : gmap string pyval
}.

Section Pipeline.

(** [urlparse(s)]: a [ParseResult], or the exception it raises. *)
Variable urlparse : str → res parse_result.

(** [requests.get(u, headers=DEFAULT_HEADERS, timeout=12,
    allow_redirects=True)]: the final response, or the exception raised.
    The answer may depend on the requests made before, which are the first
    argument. *)
Variable requests_get : list str → str → res response.

(** [BeautifulSoup(html, "html.parser")], with every script, style and
    noscript node decomposed, then [get_text(" ", strip=True)]: the visible
    text, or the exception that the parser raises on markup it rejects. *)
Variable soup_get_text : str → res str.

(** Accepts domain, full URL, or messy input; returns hostname. The
    argument is a [str]; [user_input or ""] is then [user_input]. *)
Definition extract_host (user_input : str) : res str :=
  let s := strip user_input in
  if negb (truthy s) then mret []
  else
    let s_for_parse := if negb (contains (py "://") s) then py "https://" ++ s else s in
    try_except
      (p ← urlparse s_for_parse;
       let host := strip (if truthy (netloc p) then netloc p else path p) in
       host ← index (split "@" host) (-1);
       host ← index (split ":" host) 0;
       let host := strip_char "/" (strip host) in
       let host := lower host in
       mret host)
      (λ _, mret (strip_char "/" (strip (lower s)))).

Definition is_trusted (host : str) : res bool :=
  h ← extract_host host;
  b ← base_domain h;
  mret (bool_decide (h ∈ TRUSTED) || bool_decide (b ∈ TRUSTED)).

(** One call of [requests.get], recorded in the log. *)
Definition http_get (u : str) : net response :=
  λ log, (requests_get log u, log ++ [u]).

(** The loop of [fetch_final] over the remaining candidates: [inl] is the
    early [return] of an accepted response, [inr] the new [last_err]. *)
Fixpoint fetch_loop (candidates : list str) (last_err : option str)
  : net (option str * option str * option str) :=
  match candidates with
  | [] =>
      mret (None, None,
            Some (py "Cannot access website (" ++ format_opt last_err ++ py ")"))
  | u :: rest =>
      step ← net_try_except
               (r ← http_get u;
                if (status_code r <? 400)%Z && truthy (text r)
                then mret (inl (Some (url r), Some (text r), None))
                else mret (inr (py "HTTP " ++ str_of_int (status_code r))))
               (λ e, mret (inr (exn_str e)));
      match step with
      | inl found => mret found
      | inr err => fetch_loop rest (Some err)
      end
  end.

(** Fetch URL or host, following redirects. Returns
    [(final_url, html, error)]. *)
Definition fetch_final (url_or_host : str)
  : net (option str * option str * option str) :=
  host ← lift (extract_host url_or_host);
  if negb (truthy host) then mret (None, None, Some (py "Empty input"))
  else
    let candidates :=
      (if contains (py "://") url_or_host then [strip url_or_host] else [])
      ++ [py "https://" ++ host ++ py "/"; py "http://" ++ host ++ py "/"] in
    fetch_loop candidates None.

(** The cleaning of the visible text: whitespace runs collapsed,
    lowercased. *)
Definition cleaned_text (visible : str) : str :=
  lower (sub_ws visible).

(** Simple heuristics (thin content + lorem). The parser is called under
    no [try]: what it raises leaves the function. [risk] and [signals] are
    updated statement by statement, as in the source. *)
Definition quick_risk_from_html (html : str) : res risk_result :=
  visible ← soup_get_text html;
  let text := cleaned_text visible in
  let risk := 0%Z in
  let signals : gmap string pyval := ∅ in
  let wc := Z.of_nat (length (split_ws text)) in
  let signals := <["word_count" := VInt wc]> signals in
  let '(risk, signals) :=
    if (wc <? 200)%Z
    then ((risk + 20)%Z, <["thin_content" := VBool true]> signals)
    else (risk, <["thin_content" := VBool false]> signals) in
  let '(risk, signals) :=
    if contains (py "lorem ipsum") text || contains (py "dolor sit amet") text
    then ((risk + 30)%Z, <["lorem_ipsum" := VBool true]> signals)
    else (risk, <["lorem_ipsum" := VBool false]> signals) in
  mret (RiskResult risk signals).

(** The pipeline: allowlist check on the input host, fetch, allowlist
    check on the final host, content scoring and label. The result is the
    returned dict. *)
Definition analyze_target (user_input : str) : net (gmap string pyval) :=
  host ← lift (extract_host user_input);
  b ← lift (base_domain host);
  trusted ← lift (is_trusted host);
  if (trusted : bool) then
    mret (dict [("status", VStr (py "OK"));
                ("input", VStr user_input);
                ("host", VStr host);
                ("base_domain", VStr b);
                ("final_url", VStr (py "https://" ++ host ++ py "/"));
                ("final_host", VStr host);
                ("final_base_domain", VStr b);
                ("forced_good", VBool true);
                ("score", VInt 90);
                ("label", VStr (py "GOOD_SAFE"));
                ("reason", VStr (py "Trusted allowlist matched"))])
  else
    '(final_url, html, err) ← fetch_final user_input;
    if truthy_opt err then
      mret (dict [("status", VStr (py "ERROR"));
                  ("input", VStr user_input);
                  ("host", VStr host);
                  ("base_domain", VStr b);
                  ("error", of_opt_str err)])
    else
      final_host ← lift (extract_host (or_empty final_url));
      final_base ← lift (base_domain final_host);
      final_trusted ← lift (is_trusted final_host);
      if (final_trusted : bool) then
        mret (dict [("status", VStr (py "OK"));
                    ("input", VStr user_input);
                    ("host", VStr host);
                    ("base_domain", VStr b);
                    ("final_url", of_opt_str final_url);
                    ("final_host", VStr final_host);
                    ("final_base_domain", VStr final_base);
                    ("forced_good", VBool true);
                    ("score", VInt 90);
                    ("label", VStr (py "GOOD_SAFE"));
                    ("reason", VStr (py "Final redirected domain is trusted"))])
      else
        html ← lift (match html with
                     | Some h => Ret h
                     | None => Raise (Exn "TypeError" (py "markup is None"))
                     end);
        res ← lift (quick_risk_from_html html);
        let risk := risk res in
        let signals := signals res in
        let '(risk, signals) :=
          if negb (startswith (py "https://") (lower (or_empty final_url)))
          then ((risk + 25)%Z, <["no_https" := VBool true]> signals)
          else (risk, <["no_https" := VBool false]> signals) in
        let score := Z.max 0 (100 - risk) in
        let label := label_from_score score in
        mret (dict [("status", VStr (py "OK"));
                    ("input", VStr user_input);
                    ("host", VStr host);
                    ("base_domain", VStr b);
                    ("final_url", of_opt_str final_url);
                    ("final_host", VStr final_host);
                    ("final_base_domain", VStr final_base);
                    ("forced_good", VBool false);
                    ("score", VInt score);
                    ("label", VStr label);
                    ("signals", VDict signals);
                    ("reason", VStr (py "Risk points: " ++ str_of_int risk
                                     ++ py ". Evaluated final URL + root domain context."))]).

End Pipeline.

(** ** The bulk scan

    The script below the definitions reads a text area and, when "Bulk
    Analyze" is pressed, analyzes its lines and builds the summary table.
    The calls that only draw on the page are left out. *)

(** The line boundaries of [str.splitlines] among the code points below
    256: LF, VT, FF, CR, FS, GS, RS and NEL. *)
Definition is_linebreak (c : ascii) : bool :=
  let n := ord c in
  ((10 <=? n) && (n <=? 13) || (28 <=? n) && (n <=? 30) || (n =? 133))%N.

(** [s.splitlines()]: a CR directly followed by LF is one boundary, and the
    text after the last boundary is a line only when it is not empty;
    [cur] is the line being read. *)
Fixpoint splitlines_from (cur : str) (s : str) : list str :=
  match s with
  | [] => if truthy cur then [cur] else []
  | c :: s' =>
      if is_linebreak c then
        cur :: match s' with
               | c' :: s'' =>
                   if Ascii.eqb c "013" && Ascii.eqb c' "010"
                   then splitlines_from [] s''
                   else splitlines_from [] s'
               | [] => []
               end
      else splitlines_from (cur ++ [c]) s'
  end.
Definition splitlines (s : str) : list str := splitlines_from [] s.

(** [d.get(k, default)]. *)
Definition dict_get (d : gmap string pyval) (k : string) (dflt : pyval) : pyval :=
  default dflt (d !! k).

(** [v == s] for a string literal [s]. *)
Definition eq_str (v : pyval) (s : str) : bool :=
  match v with
  | VStr t => bool_decide (t = s)
  | _ => false
  end.

(** Truthiness of a value. *)
Definition pyval_truthy (v : pyval) : bool :=
  match v with
  | VNone => false
  | VStr s => truthy s
  | VBool b => b
  | VInt n => negb (n =? 0)%Z
  | VDict d => negb (Nat.eqb (size d) 0)
  end.

(** [[x.strip() for x in bulk.splitlines() if x.strip()]]. *)
Definition bulk_items (bulk : str) : list str :=
  map strip (filter (λ x, truthy (strip x) = true) (splitlines bulk)).

(** The row that the summary table gets for one result. *)
Definition summary_row (r : gmap string pyval) : gmap string pyval :=
  if eq_str (dict_get r "status" VNone) (py "ERROR") then
    dict [("input", dict_get r "input" (VStr []));
          ("label", VStr (py "ERROR"));
          ("score", VInt 0);
          ("final_url", VStr []);
          ("final_root_domain", dict_get r "base_domain" (VStr []));
          ("note", dict_get r "error" (VStr []))]
  else
    dict [("input", dict_get r "input" (VStr []));
          ("label", dict_get r "label" (VStr []));
          ("score", dict_get r "score" (VInt 0));
          ("final_url", dict_get r "final_url" (VStr []));
          ("final_root_domain", dict_get r "final_base_domain" (VStr []));
          ("note", VStr (if pyval_truthy (dict_get r "forced_good" VNone)
                         then py "trusted" else []))].

Section BulkScan.

Variable urlparse : str → res parse_result.
Variable requests_get : list str → str → res response.
Variable soup_get_text : str → res str.

(** [[analyze_target(x) for x in items]]. *)
Fixpoint analyze_each (items : list str) : net (list (gmap string pyval)) :=
  match items with
  | [] => mret []
  | x :: rest =>
      r ← analyze_target urlparse requests_get soup_get_text x;
      rs ← analyze_each rest;
      mret (r :: rs)
  end.

(** What "Bulk Analyze" computes from the text area: [None] when there is
    no item (a warning is shown), else the results and the rows of the
    summary table. *)
Definition bulk_analyze (bulk : str)
  : net (option (list (gmap string pyval) * list (gmap string pyval))) :=
  let items := bulk_items bulk in
  match items with
  | [] => mret None
  | _ :: _ =>
      results ← analyze_each (take 200 items);
      let rows := map summary_row results in
      mret (Some (results, rows))
  end.

End BulkScan.

(** ** Library behaviour on concrete inputs

    The pipeline above is parametric in the libraries. To run it, this part
    transcribes [urlparse] from CPython 3.10's [Lib/urllib/parse.py]
    ([urlsplit], [_splitnetloc], [_splitparams]) and fixes some networks.
    The transcription leaves out the result cache and [_checknetloc]: the
    latter only raises when the NFKC form of the authority holds one of
    [/ ? # @ :] that the authority itself does not, and no code point
    below 256 normalises to one of them. *)

Module CPython.

(** [s.partition(c)], [None] when [c] does not occur. *)
Fixpoint split_once (c : ascii) (s : str) : option (str * str) :=
  match s with
  | [] => None
  | a :: s' =>
      if Ascii.eqb a c then Some ([], s')
      else match split_once c s' with
           | Some (l, r) => Some (a :: l, r)
           | None => None
           end
  end.

(** [s.rfind(c)], [None] for -1. *)
Fixpoint rfind (c : ascii) (s : str) : option nat :=
  match s with
  | [] => None
  | a :: s' =>
      match rfind c s' with
      | Some i => Some (S i)
      | None => if Ascii.eqb a c then Some 0%nat else None
      end
  end.

Definition in_chars (chars : str) (c : ascii) : bool :=
  existsb (Ascii.eqb c) chars.

Definition scheme_chars : str :=
  py "abcdefghijklmnopqrstuvwxyzABCDEFGHIJKLMNOPQRSTUVWXYZ0123456789+-.".

Definition uses_params : list str :=
  [py ""; py "ftp"; py "hdl"; py "prospero"; py "http"; py "imap";
   py "https"; py "shttp"; py "rtsp"; py "rtspu"; py "sip"; py "sips";
   py "mms"; py "sftp"; py "tel"].

(** [_UNSAFE_URL_BYTES_TO_REMOVE]: TAB, CR and LF are deleted. *)
Definition remove_unsafe (u : str) : str :=
  filter (λ c, ¬ (ord c = 9 ∨ ord c = 13 ∨ ord c = 10)%N) u.

(** [_splitnetloc(u, 2)] for [u] that starts with two slashes. *)
Definition splitnetloc (u : str) : str * str :=
  let rest := drop 2 u in
  let tail := drop_while (λ c, negb (in_chars (py "/?#") c)) rest in
  (take (length rest - length tail) rest, tail).

(** [urlsplit(u)]: scheme, netloc, path, query, fragment. *)
Definition urlsplit (u : str) : res (str * str * str * str * str) :=
  let u := remove_unsafe u in
  let '(sch, u) :=
    match split_once ":" u with
    | Some (pre, post) =>
        if truthy pre && forallb (in_chars scheme_chars) pre
        then (lower pre, post) else ([], u)
    | None => ([], u)
    end in
  '(loc, u) ←
    (if startswith (py "//") u then
       let '(loc, u) := splitnetloc u in
       if in_chars loc "[" && negb (in_chars loc "]")
          || in_chars loc "]" && negb (in_chars loc "[")
       then Raise (Exn "ValueError" (py "Invalid IPv6 URL"))
       else Ret (loc, u)
     else Ret ([], u));
  let '(u, frag) :=
    match split_once "#" u with Some (l, r) => (l, r) | None => (u, []) end in
  let '(u, qry) :=
    match split_once "?" u with Some (l, r) => (l, r) | None => (u, []) end in
  mret (sch, loc, u, qry, frag).

(** [_splitparams(u)]; the last case is [u[:-1], u[0:]], for a [u]
    without semicolon. *)
Definition splitparams (u : str) : str * str :=
  match rfind "/" u with
  | Some k =>
      match split_once ";" (drop k u) with
      | Some (l, r) => (take k u ++ l, r)
      | None => (u, [])
      end
  | None =>
      match split_once ";" u with
      | Some (l, r) => (l, r)
      | None => (removelast u, u)
      end
  end.

Definition urlparse (u : str) : res parse_result :=
  '(sch, loc, u, qry, frag) ← urlsplit u;
  let '(u, prm) :=
    if bool_decide (sch ∈ uses_params) && in_chars u ";"
    then splitparams u else (u, []) in
  mret (ParseResult sch loc u prm qry frag).

End CPython.

(** A network on which every request raises: the host cannot be resolved. *)
Definition net_unreachable : list str → str → res response :=
  λ _ _, Raise (Exn "ConnectionError" (py "Name or service not known")).

(** A network on which every request ends, after redirects, at [final]
    with status 200 and body [body]. *)
Definition net_serving (final body : str) : list str → str → res response :=
  λ _ _, Ret (Response 200 body final).

(** A network on which every request is answered with status 200 and an
    empty body. *)
Definition net_empty_body : list str → str → res response :=
  λ _ u, Ret (Response 200 [] u).

(** A network that refuses https and serves [body] over http, without
    redirect. *)
Definition net_http_only (body : str) : list str → str → res response :=
  λ _ u, if startswith (py "https://") u
         then Raise (Exn "ConnectionError" (py "Connection refused"))
         else Ret (Response 200 body u).

(** Text extraction on a page that holds neither markup nor character
    references: the text itself, stripped. *)
Definition plain_text : str → res str := λ html, Ret (strip html).

(** Text extraction that rejects the page [<![x]>]: html.parser raises on
    a marked section whose keyword it does not know, and BeautifulSoup
    reports the markup as rejected. Any other page is taken to hold no
    markup. *)
Definition rejecting_text : str → res str :=
  λ html, if bool_decide (html = py "<![x]>")
          then Raise (Exn "ParserRejectedMarkup"
                        (py "unknown status keyword 'x' in marked section"))
          else Ret (strip html).

(** ** Vocabulary of the statements *)

(** The string that [extract_host] hands to [urlparse] for a non-blank
    input. *)
Definition s_for_parse (user_input : str) : str :=
  let s := strip user_input in
  if negb (contains (py "://") s) then py "https://" ++ s else s.

(** The URLs that [fetch_final] tries, in order, for an input whose host is
    [host]. *)
Definition candidates (url_or_host host : str) : list str :=
  (if contains (py "://") url_or_host then [strip url_or_host] else [])
  ++ [py "https://" ++ host ++ py "/"; py "http://" ++ host ++ py "/"].

(** The outcome of a request that fails by a network error, a timeout (an
    exception of [requests]) or a status of 400 or more. *)
Definition attempt_fails (outcome : res response) : Prop :=
  match outcome with
  | Raise _ => True
  | Ret r => (400 ≤ status_code r)%Z
  end.

(** The error that such an outcome leaves in [last_err]. *)
Definition attempt_error (outcome : res response) : str :=
  match outcome with
  | Raise e => exn_str e
  | Ret r => py "HTTP " ++ str_of_int (status_code r)
  end.

(** The risk points of a set of triggered signals. *)
Definition risk_points (thin_content lorem_ipsum no_https : bool) : Z :=
  (if thin_content then 20 else 0) + (if lorem_ipsum then 30 else 0)
  + (if no_https then 25 else 0).

(** A response that [fetch_final] accepts: status below 400 and a body
    that is not empty. *)
Definition accepted (outcome : res response) : bool :=
  match outcome with
  | Ret r => (status_code r <? 400)%Z && truthy (text r)
  | Raise _ => false
  end.

(** The labels, from worst to best. *)
Definition label_rank (label : str) : nat :=
  if bool_decide (label = py "GOOD_SAFE") then 2
  else if bool_decide (label = py "SUSPICIOUS") then 1
  else 0.

(** The labels of the summary table. *)
Definition row_labels : list str :=
  [py "ERROR"; py "GOOD_SAFE"; py "SUSPICIOUS"; py "LOW_QUALITY"].

(** The keys of a row of the summary table. *)
Definition row_keys : gset string :=
  {[ "input"; "label"; "score"; "final_url"; "final_root_domain"; "note" ]}.

(** What every result of [analyze_target] for [input] looks like: the
    common fields, then either an error or a score with its label. *)
Definition well_formed_result (input : str) (d : gmap string pyval) : Prop :=
  d !! "input" = Some (VStr input) ∧
  (∃ host b, d !! "host" = Some (VStr host) ∧ d !! "base_domain" = Some (VStr b)) ∧
  ((d !! "status" = Some (VStr (py "ERROR")) ∧
    (∃ msg, d !! "error" = Some (VStr msg) ∧ truthy msg = true) ∧
    d !! "score" = None ∧ d !! "label" = None ∧
    d !! "final_url" = None ∧ d !! "forced_good" = None) ∨
   (d !! "status" = Some (VStr (py "OK")) ∧ d !! "error" = None ∧
    ∃ score forced final_url final_base,
      d !! "score" = Some (VInt score) ∧ (25 ≤ score ≤ 100)%Z ∧
      d !! "label" = Some (VStr (label_from_score score)) ∧
      d !! "forced_good" = Some (VBool forced) ∧ (forced = true → score = 90%Z) ∧
      d !! "final_url" = Some (VStr final_url) ∧
      d !! "final_base_domain" = Some (VStr final_base))).

(** The one way in which [analyze_target] raises, run from the log
    [log0]: the input host is not trusted, the fetch succeeds with the
    requests up to [log], the final host is not trusted either, and the
    text extraction raises [e] on the fetched page. *)
Definition scoring_raises
    (urlparse : str → res parse_result) (requests_get : list str → str → res response)
    (soup_get_text : str → res str)
    (input : str) (log0 : list str) (e : exn) (log : list str) : Prop :=
  ∃ host final_url html final_host,
    extract_host urlparse input = Ret host ∧
    is_trusted urlparse host = Ret false ∧
    fetch_final urlparse requests_get input log0
    = (Ret (Some final_url, Some html, None), log) ∧
    extract_host urlparse final_url = Ret final_host ∧
    is_trusted urlparse final_host = Ret false ∧
    soup_get_text html = Raise e.

(** ** The text heuristics, as the specification words them

    "Collapse any run of whitespace to a single space, lowercase", "the
    number of whitespace-separated tokens", "contains the substring": these
    are written here by other means than the code's ([re.sub], [str.lower],
    [str.split] and [in] above), for the code to be compared with. *)

(** The whitespace code points below 256, as a table. *)
Definition spec_whitespace : list N :=
  [9; 10; 11; 12; 13; 28; 29; 30; 31; 32; 133; 160]%N.
Definition spec_isspace (c : ascii) : bool := bool_decide (ord c ∈ spec_whitespace).

(** The capitals below 256 and their small letters, as a table: A to Z,
    then the Latin-1 capitals 0xC0..0xD6 and 0xD8..0xDE. *)
Definition spec_capitals : str :=
  py "ABCDEFGHIJKLMNOPQRSTUVWXYZ" ++ map ascii_of_nat (seq 192 23 ++ seq 216 7).
Definition spec_smalls : str :=
  py "abcdefghijklmnopqrstuvwxyz" ++ map ascii_of_nat (seq 224 23 ++ seq 248 7).
Definition spec_lower_char (c : ascii) : ascii :=
  from_option (λ p, p.2.2) c (list_find (λ p, p.1 = c) (zip spec_capitals spec_smalls)).

(** Each maximal run of whitespace becomes one space, written where the run
    ends. *)
Fixpoint spec_collapse (s : str) : str :=
  match s with
  | [] => []
  | c :: s' =>
      if spec_isspace c then
        match s' with
        | c' :: _ => if spec_isspace c' then spec_collapse s' else " "%char :: spec_collapse s'
        | [] => [" "%char]
        end
      else c :: spec_collapse s'
  end.

(** The cleaned text: whitespace collapsed, then lowercased. *)
Definition spec_clean (visible : str) : str :=
  map spec_lower_char (spec_collapse visible).

(** The number of whitespace-separated tokens: the code points that are not
    whitespace and stand first or after whitespace. *)
Fixpoint spec_word_count_from (after_space : bool) (s : str) : nat :=
  match s with
  | [] => 0
  | c :: s' =>
      (if after_space && negb (spec_isspace c) then 1 else 0)
      + spec_word_count_from (spec_isspace c) s'
  end.
Definition spec_word_count (s : str) : nat := spec_word_count_from true s.

(** [needle] occurs in [hay]. *)
Definition spec_has_substring (needle hay : str) : Prop :=
  ∃ before after, hay = before ++ needle ++ after.

(** * Properties *)

(** ** Strings and indexing *)

Lemma split_length sep s : (1 ≤ length (split sep s))%nat.
Proof.
  induction s as [|c s IH]; simpl; [lia|].
  destruct (Ascii.eqb c sep); simpl; [lia|].
  destruct (split sep s); simpl in *; lia.
Qed.

Lemma index_from_end {A} (l : list A) (k : nat) x :
  (1 ≤ k ≤ length l)%nat → l !! (length l - k)%nat = Some x →
  index l (- Z.of_nat k) = Ret x.
Proof.
  intros Hk H. unfold index.
  destruct (Z.ltb_spec (- Z.of_nat k) 0) as [_|?]; [|lia].
  destruct (Z.ltb_spec (- Z.of_nat k + Z.of_nat (length l)) 0) as [?|_]; [lia|].
  replace (Z.to_nat (- Z.of_nat k + Z.of_nat (length l))) with (length l - k)%nat by lia.
  by rewrite H.
Qed.

Lemma index_total {A} (l : list A) (i : Z) :
  (- Z.of_nat (length l) ≤ i < Z.of_nat (length l))%Z → ∃ x, index l i = Ret x.
Proof.
  intros Hi. unfold index.
  destruct (Z.ltb_spec i 0).
  - destruct (Z.ltb_spec (i + Z.of_nat (length l)) 0); [lia|].
    destruct (lookup_lt_is_Some_2 l (Z.to_nat (i + Z.of_nat (length l)))) as [x ->]; [lia|eauto].
  - destruct (Z.ltb_spec i 0); [lia|].
    destruct (lookup_lt_is_Some_2 l (Z.to_nat i)) as [x ->]; [lia|eauto].
Qed.

Lemma drop_while_all p s : forallb p s = true → drop_while p s = [].
Proof.
  induction s as [|c s IH]; simpl; [done|].
  destruct (p c); simpl; [auto|done].
Qed.

Lemma strip_blank s : forallb isspace s = true → strip s = [].
Proof.
  intros H. unfold strip, strip_by, rstrip_by, lstrip_by.
  by rewrite (drop_while_all _ _ H).
Qed.

(** ** Trimming *)

Lemma drop_while_suffix p s : drop_while p s `suffix_of` s.
Proof.
  induction s as [|c s IH]; simpl; [done|].
  destruct (p c); [by apply suffix_cons_r|done].
Qed.

Lemma drop_while_head p s c : head (drop_while p s) = Some c → p c = false.
Proof.
  induction s as [|a s IH]; simpl; [done|].
  destruct (p a) eqn:E; simpl; [done|]. by intros [= <-].
Qed.

Lemma drop_while_fixed p s :
  (∀ c, head s = Some c → p c = false) → drop_while p s = s.
Proof.
  destruct s as [|a s]; simpl; [done|]. intros H. by rewrite (H a).
Qed.

Lemma suffix_last (l1 l2 : str) :
  l1 `suffix_of` l2 → l1 ≠ [] → last l1 = last l2.
Proof.
  intros [k ->] Hne. rewrite last_app. destruct (last l1) eqn:E; [done|].
  by apply last_None in E.
Qed.

Lemma suffix_Forall (P : ascii → Prop) (l1 l2 : str) :
  l1 `suffix_of` l2 → Forall P l2 → Forall P l1.
Proof. intros [k ->] H. by apply Forall_app in H as [_ ?]. Qed.

Lemma rstrip_by_last p s c : last (rstrip_by p s) = Some c → p c = false.
Proof. unfold rstrip_by. rewrite last_reverse. apply drop_while_head. Qed.

Lemma rstrip_by_head p s c :
  (∀ a, head s = Some a → p a = false) →
  head (rstrip_by p s) = Some c → p c = false.
Proof.
  unfold rstrip_by. intros Hs. rewrite head_reverse. intros Hc.
  apply Hs. rewrite <- last_reverse, <- Hc. symmetry.
  apply suffix_last; [apply drop_while_suffix|]. by intros E; rewrite E in Hc.
Qed.

Lemma strip_by_head p s c : head (strip_by p s) = Some c → p c = false.
Proof.
  unfold strip_by. apply rstrip_by_head. intros a. apply drop_while_head.
Qed.

Lemma strip_by_last p s c : last (strip_by p s) = Some c → p c = false.
Proof. apply rstrip_by_last. Qed.

Lemma strip_by_fixed p s :
  (∀ c, head s = Some c → p c = false) →
  (∀ c, last s = Some c → p c = false) → strip_by p s = s.
Proof.
  intros Hh Hl. unfold strip_by, rstrip_by, lstrip_by.
  rewrite (drop_while_fixed p s Hh), drop_while_fixed.
  - apply reverse_involutive.
  - intros c. rewrite head_reverse. apply Hl.
Qed.

Lemma rstrip_by_length p s : (length (rstrip_by p s) ≤ length s)%nat.
Proof.
  unfold rstrip_by. rewrite length_reverse, <- (length_reverse s).
  apply suffix_length, drop_while_suffix.
Qed.

Lemma strip_by_length p s : (length (strip_by p s) ≤ length s)%nat.
Proof.
  unfold strip_by, lstrip_by. etrans; [apply rstrip_by_length|].
  apply suffix_length, drop_while_suffix.
Qed.

Lemma strip_by_shorter p s c :
  head s = Some c → p c = true → (length (strip_by p s) < length s)%nat.
Proof.
  destruct s as [|a s]; [done|]. intros [= ->] Hp.
  unfold strip_by, lstrip_by. simpl. rewrite Hp.
  pose proof (rstrip_by_length p (drop_while p s)).
  pose proof (suffix_length _ _ (drop_while_suffix p s)). lia.
Qed.

Lemma strip_by_Forall (P : ascii → Prop) p s : Forall P s → Forall P (strip_by p s).
Proof.
  intros H. unfold strip_by, rstrip_by, lstrip_by.
  apply Forall_reverse. eapply suffix_Forall; [apply drop_while_suffix|].
  apply Forall_reverse. eapply suffix_Forall; [apply drop_while_suffix|done].
Qed.

(** ** Lowercasing *)

Lemma lower_char_idem c : lower_char (lower_char c) = lower_char c.
Proof. by destruct c as [[] [] [] [] [] [] [] []]. Qed.

Lemma lower_lowered s : Forall (λ c, lower_char c = c) (lower s).
Proof.
  unfold lower. induction s; simpl; constructor; auto using lower_char_idem.
Qed.

Lemma lower_fixed s : Forall (λ c, lower_char c = c) s → lower s = s.
Proof. unfold lower. induction 1; simpl; congruence. Qed.

Lemma lower_length s : length (lower s) = length s.
Proof. apply length_map. Qed.

Lemma lower_head_dot s : head s = Some "."%char → head (lower s) = Some "."%char.
Proof. destruct s as [|a s]; [done|]. by intros [= ->]. Qed.

(** ** Splitting and joining *)

Lemma join_cons sep p ps :
  ps ≠ [] → join sep (p :: ps) = p ++ sep :: join sep ps.
Proof. by destruct ps. Qed.

Lemma split_ne sep s : split sep s ≠ [].
Proof. pose proof (split_length sep s). destruct (split sep s); simpl in *; [lia|done]. Qed.

Lemma join_split sep s : join sep (split sep s) = s.
Proof.
  induction s as [|c s IH]; [done|]. cbn [split].
  destruct (Ascii.eqb_spec c sep) as [->|Hne].
  - rewrite join_cons by apply split_ne. by rewrite IH.
  - pose proof (split_ne sep s). destruct (split sep s) as [|p ps]; [done|].
    rewrite <- IH. by destruct ps.
Qed.

Lemma split_no_sep sep s : Forall (λ p, sep ∉ p) (split sep s).
Proof.
  induction s as [|c s IH]; cbn [split].
  - constructor; [|done]. by intros ?%elem_of_nil.
  - destruct (Ascii.eqb_spec c sep) as [->|Hne].
    + constructor; [|done]. by intros ?%elem_of_nil.
    + pose proof (split_ne sep s). destruct (split sep s) as [|p ps]; [done|].
      apply Forall_cons in IH as [Hp Hps]. constructor; [|done].
      intros [?|?]%elem_of_cons; [congruence|done].
Qed.

Lemma split_app_sep sep p rest :
  sep ∉ p → split sep (p ++ sep :: rest) = p :: split sep rest.
Proof.
  induction p as [|c p IH]; intros Hp; cbn [split app].
  - by rewrite Ascii.eqb_refl.
  - destruct (Ascii.eqb_spec c sep) as [->|Hne].
    + exfalso. apply Hp. by left.
    + rewrite IH; [done|]. intros ?. apply Hp. by right.
Qed.

Lemma split_single sep p : sep ∉ p → split sep p = [p].
Proof.
  induction p as [|c p IH]; intros Hp; cbn [split]; [done|].
  destruct (Ascii.eqb_spec c sep) as [->|Hne].
  - exfalso. apply Hp. by left.
  - rewrite IH; [done|]. intros ?. apply Hp. by right.
Qed.

Lemma split_join sep ps :
  ps ≠ [] → Forall (λ p, sep ∉ p) ps → split sep (join sep ps) = ps.
Proof.
  induction ps as [|p ps IH]; [done|]. intros _ [Hp Hps]%Forall_cons.
  destruct ps as [|q ps]; [by apply split_single|].
  rewrite join_cons by done. rewrite split_app_sep by done. by rewrite IH.
Qed.

Lemma join_drop_suffix sep n ps : join sep (drop n ps) `suffix_of` join sep ps.
Proof.
  revert n. induction ps as [|p ps IH]; intros [|n]; try done.
  cbn [drop]. destruct ps as [|q ps].
  - rewrite drop_nil. apply suffix_nil.
  - rewrite join_cons by done. apply suffix_app_r, suffix_cons_r, IH.
Qed.

(** ** The text heuristics against their specification *)

Lemma isspace_spec c : isspace c = spec_isspace c.
Proof. by destruct c as [[] [] [] [] [] [] [] []]. Qed.

Lemma lower_char_spec c : lower_char c = spec_lower_char c.
Proof. by destruct c as [[] [] [] [] [] [] [] []]. Qed.

Lemma lower_spec s : lower s = map spec_lower_char s.
Proof. unfold lower. apply map_ext. intros. apply lower_char_spec. Qed.

Lemma sub_ws_spec s :
  sub_ws_from false s = spec_collapse s ∧
  (∀ c, isspace c = true → " "%char :: sub_ws_from true s = spec_collapse (c :: s)).
Proof.
  induction s as [|a s [IH1 IH2]].
  - split; [done|]. intros c Hc. cbn. by rewrite <- isspace_spec, Hc.
  - split.
    + cbn [sub_ws_from]. destruct (isspace a) eqn:Ha.
      * by apply IH2.
      * cbn [spec_collapse]. rewrite <- isspace_spec, Ha. by rewrite IH1.
    + intros c Hc.
      change (spec_collapse (c :: a :: s))
        with (if spec_isspace c
              then (if spec_isspace a then spec_collapse (a :: s)
                    else " "%char :: spec_collapse (a :: s))
              else c :: spec_collapse (a :: s)).
      rewrite <- !isspace_spec, Hc. cbn [sub_ws_from].
      destruct (isspace a) eqn:Ha.
      * by apply IH2.
      * cbn [spec_collapse]. rewrite <- isspace_spec, Ha. by rewrite IH1.
Qed.

Lemma cleaned_text_spec visible : lower (sub_ws visible) = spec_clean visible.
Proof. unfold spec_clean, sub_ws. by rewrite lower_spec, (proj1 (sub_ws_spec visible)). Qed.

Lemma split_ws_count cur s :
  length (split_ws_from cur s)
  = ((if truthy cur then 1 else 0) + spec_word_count_from (negb (truthy cur)) s)%nat.
Proof.
  revert cur. induction s as [|c s IH]; intros cur.
  - cbn. destruct (truthy cur); simpl; lia.
  - cbn [split_ws_from spec_word_count_from]. rewrite <- isspace_spec.
    destruct (isspace c) eqn:Hc.
    + rewrite length_app, IH. cbn [truthy negb]. rewrite andb_false_r.
      destruct (truthy cur); simpl; lia.
    + rewrite IH. assert (truthy (cur ++ [c]) = true) as -> by (by destruct cur).
      cbn [negb]. destruct (truthy cur); simpl; lia.
Qed.

Lemma split_ws_spec s : length (split_ws s) = spec_word_count s.
Proof. unfold split_ws, spec_word_count. by rewrite split_ws_count. Qed.

Lemma startswith_spec needle s :
  startswith needle s = true ↔ ∃ after, s = needle ++ after.
Proof.
  revert s. induction needle as [|a needle IH]; intros s.
  - split; [by exists s|done].
  - destruct s as [|b s]; cbn [startswith].
    + split; [done|]. by intros [? ?].
    + rewrite andb_true_iff, IH. split.
      * intros [Hab [after ->]]. apply Ascii.eqb_eq in Hab as ->. by exists after.
      * intros [after [= -> ->]]. split; [apply Ascii.eqb_refl|by exists after].
Qed.

Lemma contains_spec needle hay :
  contains needle hay = true ↔ spec_has_substring needle hay.
Proof.
  unfold spec_has_substring. induction hay as [|c hay IH]; cbn [contains].
  - rewrite orb_false_r, startswith_spec. split.
    + intros [after ->]. by exists [], after.
    + intros (before & after & E). symmetry in E.
      apply app_eq_nil in E as [-> E]. by exists after.
  - rewrite orb_true_iff, startswith_spec, IH. split.
    + intros [[after E]|(before & after & ->)].
      * exists [], after. by rewrite E.
      * by exists (c :: before), after.
    + intros ([|b before] & after & E).
      * left. by exists after.
      * right. injection E as -> ->. by exists before, after.
Qed.

(** ** [label_from_score] *)

(** C1: scores below 50 are LOW_QUALITY, scores from 50 up to (not
    including) 60 are SUSPICIOUS, scores above 70 are GOOD_SAFE and every
    score from 60 to 70, 70 included, is SUSPICIOUS; in particular 49 is
    LOW_QUALITY, 50, 59, 60 and 70 are SUSPICIOUS, 71 and 100 are
    GOOD_SAFE. *)
Theorem label_from_score_mapping (score : Z) :
  ((score < 50)%Z → label_from_score score = py "LOW_QUALITY") ∧
  ((50 ≤ score < 60)%Z → label_from_score score = py "SUSPICIOUS") ∧
  ((score > 70)%Z → label_from_score score = py "GOOD_SAFE") ∧
  ((60 ≤ score ≤ 70)%Z → label_from_score score = py "SUSPICIOUS") ∧
  label_from_score 49 = py "LOW_QUALITY" ∧
  label_from_score 50 = py "SUSPICIOUS" ∧
  label_from_score 59 = py "SUSPICIOUS" ∧
  label_from_score 60 = py "SUSPICIOUS" ∧
  label_from_score 70 = py "SUSPICIOUS" ∧
  label_from_score 71 = py "GOOD_SAFE" ∧
  label_from_score 100 = py "GOOD_SAFE".
Proof.
  unfold label_from_score.
  repeat split; try reflexivity; intros H;
    destruct (Z.ltb_spec score 50); try lia;
    destruct (Z.ltb_spec score 60); try lia;
    destruct (Z.gtb_spec score 70); try lia; reflexivity.
Qed.

Lemma label_from_score_mapping_witness :
  label_from_score 30 = py "LOW_QUALITY" ∧
  label_from_score 55 = py "SUSPICIOUS" ∧
  label_from_score 75 = py "GOOD_SAFE" ∧
  label_from_score 65 = py "SUSPICIOUS".
Proof.
  split; [|split; [|split]].
  - destruct (label_from_score_mapping 30) as (H & _). apply H. lia.
  - destruct (label_from_score_mapping 55) as (_ & H & _). apply H. lia.
  - destruct (label_from_score_mapping 75) as (_ & _ & H & _). apply H. lia.
  - destruct (label_from_score_mapping 65) as (_ & _ & _ & H & _). apply H. lia.
Defined.

(** ** [extract_host] *)

Section ExtractHost.

Variable urlparse : str → res parse_result.

Lemma extract_host_total user_input :
  ∃ host, extract_host urlparse user_input = Ret host.
Proof.
  unfold extract_host.
  destruct (truthy (strip user_input)); simpl; [|by eexists].
  destruct (urlparse _) as [p|e]; simpl; [|by eexists].
  set (h0 := strip _).
  destruct (index_total (split "@" h0) (-1)) as [h1 ->]; simpl.
  { pose proof (split_length "@" h0). lia. }
  destruct (index_total (split ":" h1) 0) as [h2 ->]; simpl.
  { pose proof (split_length ":" h1). lia. }
  by eexists.
Qed.

(** C9: [extract_host] never raises: every input, whatever [urlparse]
    does with it, yields a string; blank input (empty or whitespace only)
    yields the empty string; and when [urlparse] raises, the result is the
    trimmed input, lowercased and trimmed of whitespace and of slashes. *)
Theorem extract_host_never_raises (user_input : str) :
  (∃ host, extract_host urlparse user_input = Ret host) ∧
  (forallb isspace user_input = true → extract_host urlparse user_input = Ret []) ∧
  (∀ e, truthy (strip user_input) = true →
        urlparse (s_for_parse user_input) = Raise e →
        extract_host urlparse user_input
        = Ret (strip_char "/" (strip (lower (strip user_input))))).
Proof.
  split; [apply extract_host_total|]. split.
  - intros H. unfold extract_host. by rewrite (strip_blank _ H).
  - intros e Hs He. unfold extract_host. cbv zeta.
    rewrite Hs. cbn [negb].
    match goal with
    | |- try_except (urlparse ?x ≫= _) _ = _ =>
        replace (urlparse x) with (@Raise parse_result e) by (symmetry; exact He)
    end.
    reflexivity.
Qed.

End ExtractHost.

(** ** [base_domain] *)

(** What [base_domain] returns, by the number of labels. *)
Lemma base_domain_cases h :
  let host := strip_char "." (lower h) in
  let parts := split "." host in
  ((length parts ≤ 2)%nat ∧ base_domain h = Ret host) ∨
  ((3 ≤ length parts)%nat ∧
   ∃ p2 p1, parts !! (length parts - 2)%nat = Some p2 ∧
            parts !! (length parts - 1)%nat = Some p1 ∧
            (((p2, p1) ∈ two_part_tlds ∧
              base_domain h = Ret (join "." (drop (length parts - 3) parts))) ∨
             (((p2, p1) ∉ two_part_tlds) ∧
              base_domain h = Ret (join "." (drop (length parts - 2) parts))))).
Proof.
  intros host parts. unfold base_domain. fold host. fold parts.
  case_bool_decide as Hlen; [by left|right].
  split; [lia|].
  destruct (lookup_lt_is_Some_2 parts (length parts - 2)) as [p2 Hp2]; [lia|].
  destruct (lookup_lt_is_Some_2 parts (length parts - 1)) as [p1 Hp1]; [lia|].
  exists p2, p1. split; [done|]. split; [done|].
  pose proof (index_from_end parts 2 p2 ltac:(lia) Hp2) as I2.
  pose proof (index_from_end parts 1 p1 ltac:(lia) Hp1) as I1.
  change (- Z.of_nat 2)%Z with (-2)%Z in I2.
  change (- Z.of_nat 1)%Z with (-1)%Z in I1. rewrite I2, I1.
  cbn [mbind res_bind].
  case_bool_decide as Htld; cbn [andb].
  - left. split; [done|]. by rewrite bool_decide_true by lia.
  - by right.
Qed.

Lemma base_domain_total h : ∃ r, base_domain h = Ret r.
Proof.
  destruct (base_domain_cases h) as [[_ ->]|(_ & p2 & p1 & _ & _ & [[_ ->]|[_ ->]])];
    by eexists.
Qed.

(** The root domain is a suffix of the host once lowercased and trimmed of
    dots. *)
Lemma base_domain_suffix h r :
  base_domain h = Ret r → r `suffix_of` strip_char "." (lower h).
Proof.
  intros Hr.
  destruct (base_domain_cases h) as [[_ E]|(_ & p2 & p1 & _ & _ & [[_ E]|[_ E]])];
    rewrite E in Hr; injection Hr as <-; [done| |];
    match goal with
    | |- join _ (drop ?n ?ps) `suffix_of` _ =>
        pose proof (join_drop_suffix "." n ps) as H; by rewrite join_split in H
    end.
Qed.

Lemma dot_eqb_false c : Ascii.eqb "." c = false ↔ c ≠ "."%char.
Proof. destruct (Ascii.eqb_spec "." c); split; congruence. Qed.

(** A root domain that does not begin with a dot is unchanged by the
    lowercasing and trimming that opens [base_domain]. *)
Lemma base_domain_normal h r :
  base_domain h = Ret r → head r ≠ Some "."%char →
  strip_char "." (lower r) = r.
Proof.
  intros Hr Hhead. pose proof (base_domain_suffix h r Hr) as Hsuf.
  rewrite lower_fixed.
  2:{ eapply suffix_Forall; [done|]. apply strip_by_Forall, lower_lowered. }
  apply strip_by_fixed.
  - intros c Hc. apply dot_eqb_false. congruence.
  - intros c Hc. destruct r as [|a r]; [done|].
    rewrite (suffix_last _ _ Hsuf) in Hc by done.
    by apply strip_by_last in Hc.
Qed.

Lemma base_domain_fixed h r :
  base_domain h = Ret r → head r ≠ Some "."%char → base_domain r = Ret r.
Proof.
  intros Hr Hhead. pose proof (base_domain_normal h r Hr Hhead) as Hn.
  pose proof (base_domain_cases h) as Hh.
  pose proof (base_domain_cases r) as Hrr.
  cbv zeta in Hh, Hrr. rewrite Hn in Hrr.
  set (parts := split "." (strip_char "." (lower h))) in *.
  assert (Hkept : ∀ k, (1 ≤ k ≤ length parts)%nat →
            split "." (join "." (drop (length parts - k) parts))
            = drop (length parts - k) parts).
  { intros k Hk. apply split_join; [|apply Forall_drop, split_no_sep].
    intros E0. apply (f_equal length) in E0.
    rewrite length_drop in E0. simpl in E0. lia. }
  destruct Hh as [[Hlen E]|(Hlen & p2 & p1 & Hp2 & Hp1 & [[Htld E]|[Htld E]])];
    rewrite E in Hr; injection Hr as <-.
  - (* at most two labels *)
    fold parts in Hrr. destruct Hrr as [[_ E']|(Hlen' & _)]; [done|lia].
  - (* three labels kept *)
    rewrite (Hkept 3), length_drop in Hrr by lia.
    destruct Hrr as [[Hlen' _]|(_ & q2 & q1 & Hq2 & Hq1 & Hcase')]; [lia|].
    rewrite lookup_drop in Hq2, Hq1.
    replace (length parts - 3 + (length parts - (length parts - 3) - 2))%nat
      with (length parts - 2)%nat in Hq2 by lia.
    replace (length parts - 3 + (length parts - (length parts - 3) - 1))%nat
      with (length parts - 1)%nat in Hq1 by lia.
    assert (q2 = p2) as -> by congruence. assert (q1 = p1) as -> by congruence.
    destruct Hcase' as [[_ E']|[? _]]; [|done].
    rewrite E'. f_equal. f_equal. rewrite drop_drop. f_equal. lia.
  - (* two labels kept *)
    rewrite (Hkept 2), length_drop in Hrr by lia.
    destruct Hrr as [[_ E']|(Hlen' & _)]; [done|lia].
Qed.

Lemma join_head sep p ps c :
  head p = Some c → head (join sep (p :: ps)) = Some c.
Proof. destruct p as [|a p]; [done|]. intros [= ->]. by destruct ps. Qed.

(** X19: a host whose labels are all non-empty has a root domain that does
    not begin with a dot, hence one that [base_domain] leaves unchanged. *)
Lemma base_domain_idempotent_labels h :
  Forall (λ p, p ≠ []) (split "." (strip_char "." (lower h))) →
  ∃ r, base_domain h = Ret r ∧ base_domain r = Ret r.
Proof.
  intros Hne. destruct (base_domain_total h) as [r Hr]. exists r.
  split; [done|]. apply (base_domain_fixed h); [done|].
  pose proof (base_domain_cases h) as Hc. cbv zeta in Hc.
  set (parts := split "." (strip_char "." (lower h))) in *.
  assert (Hdrop : ∀ n, (n < length parts)%nat →
            head (join "." (drop n parts)) ≠ Some "."%char).
  { intros n Hn.
    destruct (drop n parts) as [|p ps] eqn:Ed.
    { apply (f_equal length) in Ed. rewrite length_drop in Ed. simpl in Ed. lia. }
    assert (Hp : p ∈ parts).
    { apply (list_elem_of_lookup_2 _ n). rewrite <- (Nat.add_0_r n), <- lookup_drop.
      by rewrite Ed. }
    assert (p ≠ []) as Hp0 by (by eapply Forall_forall in Hne).
    assert ("."%char ∉ p) as Hp1
      by (pose proof (split_no_sep "." (strip_char "." (lower h))) as Hs;
          by eapply Forall_forall in Hs).
    destruct p as [|a p]; [done|]. rewrite (join_head _ _ _ a) by done.
    intros [= ->]. apply Hp1. by left. }
  destruct Hc as [[_ E]|(Hlen & p2 & p1 & _ & _ & [[_ E]|[_ E]])];
    rewrite E in Hr; injection Hr as <-.
  - intros Hh. apply strip_by_head in Hh. by rewrite Ascii.eqb_refl in Hh.
  - apply Hdrop. lia.
  - apply Hdrop. lia.
Qed.

Lemma base_domain_shrinks r r' :
  head r = Some "."%char → base_domain r = Ret r' → (length r' < length r)%nat.
Proof.
  intros Hhead Hr'. apply (base_domain_suffix r r') in Hr'. apply suffix_length in Hr'.
  pose proof (strip_by_shorter (Ascii.eqb ".") (lower r) "." (lower_head_dot r Hhead) eq_refl) as H.
  rewrite lower_length in H. unfold strip_char in Hr'. lia.
Qed.

(** C8 (amended): [base_domain] always returns, and applying it to its own
    result gives that result again exactly when the result does not begin
    with a dot. *)
Theorem base_domain_idempotent_iff (h : str) :
  ∃ r, base_domain h = Ret r ∧
       (base_domain r = Ret r ↔ head r ≠ Some "."%char).
Proof.
  destruct (base_domain_total h) as [r Hr]. exists r. split; [done|]. split.
  - intros Hfix Hhead. pose proof (base_domain_shrinks r r Hhead Hfix). lia.
  - by apply (base_domain_fixed h).
Qed.

(** C8, refuted: the host [a..b] reduces to [.b], which reduces to [b]. *)
Lemma base_domain_not_idempotent :
  base_domain (py "a..b") = Ret (py ".b") ∧
  base_domain (py ".b") = Ret (py "b") ∧
  ¬ (∀ h r, base_domain h = Ret r → base_domain r = Ret r).
Proof.
  assert (E1 : base_domain (py "a..b") = Ret (py ".b")) by by vm_compute.
  assert (E2 : base_domain (py ".b") = Ret (py "b")) by by vm_compute.
  split; [done|]. split; [done|].
  intros H. specialize (H _ _ E1). rewrite E2 in H. discriminate H.
Qed.

(** ** Running the monads *)

Lemma bind_lift_ret {A B} (m : res A) (a : A) (f : A → net B) log :
  m = Ret a → (lift m ≫= f) log = f a log.
Proof. by intros ->. Qed.

Lemma bind_lift_raise {A B} (m : res A) (e : exn) (f : A → net B) log :
  m = Raise e → (lift m ≫= f) log = (Raise e, log).
Proof. by intros ->. Qed.

Lemma bind_ret {A B} (m : net A) (a : A) (f : A → net B) log log' :
  m log = (Ret a, log') → (m ≫= f) log = f a log'.
Proof. intros H. unfold mbind, net_bind. by rewrite H. Qed.

Lemma bind_raise {A B} (m : net A) (e : exn) (f : A → net B) log log' :
  m log = (Raise e, log') → (m ≫= f) log = (Raise e, log').
Proof. intros H. unfold mbind, net_bind. by rewrite H. Qed.

Section PipelineFacts.

Variable urlparse : str → res parse_result.
Variable requests_get : list str → str → res response.
Variable soup_get_text : str → res str.

#[local] Abbreviation extract_host := (extract_host urlparse).
#[local] Abbreviation is_trusted := (is_trusted urlparse).
#[local] Abbreviation fetch_loop := (fetch_loop requests_get).
#[local] Abbreviation fetch_final := (fetch_final urlparse requests_get).
#[local] Abbreviation quick_risk_from_html := (quick_risk_from_html soup_get_text).
#[local] Abbreviation analyze_with text := (analyze_target urlparse requests_get text).
#[local] Abbreviation analyze_target := (analyze_with soup_get_text).

Lemma is_trusted_total host : ∃ t, is_trusted host = Ret t.
Proof.
  unfold is_trusted.
  destruct (extract_host_total urlparse host) as [h ->]. cbn [mbind res_bind].
  destruct (base_domain_total h) as [b ->]. by eexists.
Qed.

(** On a host that [extract_host] leaves unchanged, the trust check is the
    membership of the host or of its root domain in the allowlist. *)
Lemma is_trusted_fixed_host host b :
  extract_host host = Ret host → base_domain host = Ret b →
  is_trusted host = Ret (bool_decide (host ∈ TRUSTED) || bool_decide (b ∈ TRUSTED)).
Proof. intros Hh Hb. unfold is_trusted. rewrite Hh. cbn [mbind res_bind]. by rewrite Hb. Qed.

(** One turn of the loop of [fetch_final]. *)
Lemma fetch_loop_cons u rest last_err log :
  fetch_loop (u :: rest) last_err log =
  match requests_get log u with
  | Ret r =>
      if (status_code r <? 400)%Z && truthy (text r)
      then (Ret (Some (url r), Some (text r), None), log ++ [u])
      else fetch_loop rest (Some (py "HTTP " ++ str_of_int (status_code r))) (log ++ [u])
  | Raise e => fetch_loop rest (Some (exn_str e)) (log ++ [u])
  end.
Proof.
  cbn [fetch_loop]. unfold mbind, net_bind, net_try_except, http_get.
  destruct (requests_get log u) as [r|e]; [|done].
  by destruct ((status_code r <? 400)%Z && truthy (text r)).
Qed.

Lemma fetch_loop_shape candidates last_err log0 :
  ∃ log,
    (∃ msg, fetch_loop candidates last_err log0 = (Ret (None, None, Some msg), log)
            ∧ truthy msg = true) ∨
    (∃ u t, fetch_loop candidates last_err log0 = (Ret (Some u, Some t, None), log)
            ∧ truthy t = true).
Proof.
  revert last_err log0. induction candidates as [|u rest IH]; intros last_err log0.
  - exists log0. left. eexists. split; [reflexivity|done].
  - rewrite fetch_loop_cons. destruct (requests_get log0 u) as [r|e]; [|apply IH].
    destruct (status_code r <? 400)%Z; cbn [andb]; [|apply IH].
    destruct (truthy (text r)) eqn:Ht; [|apply IH].
    exists (log0 ++ [u]). right. by exists (url r), (text r).
Qed.

Lemma fetch_final_shape input log0 :
  ∃ log,
    (∃ msg, fetch_final input log0 = (Ret (None, None, Some msg), log)
            ∧ truthy msg = true) ∨
    (∃ u t, fetch_final input log0 = (Ret (Some u, Some t, None), log)
            ∧ truthy t = true).
Proof.
  unfold fetch_final.
  destruct (extract_host_total urlparse input) as [host Hh].
  rewrite (bind_lift_ret _ host) by done.
  destruct (truthy host); cbn [negb]; [apply fetch_loop_shape|].
  exists log0. left. eexists. split; [reflexivity|done].
Qed.


(** *** The four ways through [analyze_target] *)

Lemma analyze_allowlist input host b :
  extract_host input = Ret host → base_domain host = Ret b →
  is_trusted host = Ret true →
  run (analyze_target input) =
  (Ret (dict [("status", VStr (py "OK"));
              ("input", VStr input);
              ("host", VStr host);
              ("base_domain", VStr b);
              ("final_url", VStr (py "https://" ++ host ++ py "/"));
              ("final_host", VStr host);
              ("final_base_domain", VStr b);
              ("forced_good", VBool true);
              ("score", VInt 90);
              ("label", VStr (py "GOOD_SAFE"));
              ("reason", VStr (py "Trusted allowlist matched"))]), []).
Proof.
  intros Hh Hb Ht. unfold run, analyze_target.
  rewrite (bind_lift_ret _ host) by done.
  rewrite (bind_lift_ret _ b) by done.
  by rewrite (bind_lift_ret _ true) by done.
Qed.

Lemma analyze_error input host b msg log :
  extract_host input = Ret host → base_domain host = Ret b →
  is_trusted host = Ret false →
  fetch_final input [] = (Ret (None, None, Some msg), log) → truthy msg = true →
  run (analyze_target input) =
  (Ret (dict [("status", VStr (py "ERROR"));
              ("input", VStr input);
              ("host", VStr host);
              ("base_domain", VStr b);
              ("error", VStr msg)]), log).
Proof.
  intros Hh Hb Ht Hf Hm. unfold run, analyze_target.
  rewrite (bind_lift_ret _ host) by done.
  rewrite (bind_lift_ret _ b) by done.
  rewrite (bind_lift_ret _ false) by done.
  rewrite (bind_ret _ _ _ _ _ Hf). cbn [truthy_opt]. by rewrite Hm.
Qed.

Lemma analyze_redirect input host b final_url html final_host final_base log :
  extract_host input = Ret host → base_domain host = Ret b →
  is_trusted host = Ret false →
  fetch_final input [] = (Ret (Some final_url, Some html, None), log) →
  extract_host final_url = Ret final_host → base_domain final_host = Ret final_base →
  is_trusted final_host = Ret true →
  run (analyze_target input) =
  (Ret (dict [("status", VStr (py "OK"));
              ("input", VStr input);
              ("host", VStr host);
              ("base_domain", VStr b);
              ("final_url", VStr final_url);
              ("final_host", VStr final_host);
              ("final_base_domain", VStr final_base);
              ("forced_good", VBool true);
              ("score", VInt 90);
              ("label", VStr (py "GOOD_SAFE"));
              ("reason", VStr (py "Final redirected domain is trusted"))]), log).
Proof.
  intros Hh Hb Ht Hf Hfh Hfb Hft. unfold run, analyze_target.
  rewrite (bind_lift_ret _ host) by done.
  rewrite (bind_lift_ret _ b) by done.
  rewrite (bind_lift_ret _ false) by done.
  rewrite (bind_ret _ _ _ _ _ Hf). cbn [truthy_opt or_empty].
  rewrite (bind_lift_ret _ final_host) by done.
  rewrite (bind_lift_ret _ final_base) by done.
  by rewrite (bind_lift_ret _ true) by done.
Qed.

Lemma analyze_scored input host b final_url html final_host final_base log rr :
  extract_host input = Ret host → base_domain host = Ret b →
  is_trusted host = Ret false →
  fetch_final input [] = (Ret (Some final_url, Some html, None), log) →
  extract_host final_url = Ret final_host → base_domain final_host = Ret final_base →
  is_trusted final_host = Ret false →
  quick_risk_from_html html = Ret rr →
  let no_https := negb (startswith (py "https://") (lower final_url)) in
  let total := (risk rr + (if no_https then 25 else 0))%Z in
  let score := Z.max 0 (100 - total) in
  run (analyze_target input) =
  (Ret (dict [("status", VStr (py "OK"));
              ("input", VStr input);
              ("host", VStr host);
              ("base_domain", VStr b);
              ("final_url", VStr final_url);
              ("final_host", VStr final_host);
              ("final_base_domain", VStr final_base);
              ("forced_good", VBool false);
              ("score", VInt score);
              ("label", VStr (label_from_score score));
              ("signals", VDict (<["no_https" := VBool no_https]> (signals rr)));
              ("reason", VStr (py "Risk points: " ++ str_of_int total
                               ++ py ". Evaluated final URL + root domain context."))]),
   log).
Proof.
  intros Hh Hb Ht Hf Hfh Hfb Hft Hrr no_https total score.
  unfold run, analyze_target.
  rewrite (bind_lift_ret _ host) by done.
  rewrite (bind_lift_ret _ b) by done.
  rewrite (bind_lift_ret _ false) by done.
  rewrite (bind_ret _ _ _ _ _ Hf). cbn [truthy_opt or_empty].
  rewrite (bind_lift_ret _ final_host) by done.
  rewrite (bind_lift_ret _ final_base) by done.
  rewrite (bind_lift_ret _ false) by done.
  rewrite (bind_lift_ret _ html) by done.
  rewrite (bind_lift_ret _ rr) by done.
  subst score total. fold no_https. destruct no_https; [done|].
  by rewrite Z.add_0_r.
Qed.

(** On the content-scoring path, what the scorer raises leaves
    [analyze_target]. *)
Lemma analyze_scoring_raises input host final_url html final_host log e :
  extract_host input = Ret host → is_trusted host = Ret false →
  fetch_final input [] = (Ret (Some final_url, Some html, None), log) →
  extract_host final_url = Ret final_host → is_trusted final_host = Ret false →
  quick_risk_from_html html = Raise e →
  run (analyze_target input) = (Raise e, log).
Proof.
  intros Hh Ht Hf Hfh Hft Hrr.
  destruct (base_domain_total host) as [b Hb].
  destruct (base_domain_total final_host) as [fb Hfb].
  unfold run, analyze_target.
  rewrite (bind_lift_ret _ host) by done.
  rewrite (bind_lift_ret _ b) by done.
  rewrite (bind_lift_ret _ false) by done.
  rewrite (bind_ret _ _ _ _ _ Hf). cbn [truthy_opt or_empty].
  rewrite (bind_lift_ret _ final_host) by done.
  rewrite (bind_lift_ret _ fb) by done.
  rewrite (bind_lift_ret _ false) by done.
  rewrite (bind_lift_ret _ html) by done.
  by rewrite (bind_lift_raise _ e) by done.
Qed.

(** Every run of [analyze_target] goes one of four ways. *)
Lemma analyze_target_cases input :
  ∃ host b, extract_host input = Ret host ∧ base_domain host = Ret b ∧
    ((is_trusted host = Ret true) ∨
     (is_trusted host = Ret false ∧
      ∃ log,
        (∃ msg, fetch_final input [] = (Ret (None, None, Some msg), log)
                ∧ truthy msg = true) ∨
        (∃ final_url html final_host final_base,
           fetch_final input [] = (Ret (Some final_url, Some html, None), log) ∧
           extract_host final_url = Ret final_host ∧
           base_domain final_host = Ret final_base ∧
           (is_trusted final_host = Ret true ∨ is_trusted final_host = Ret false)))).
Proof.
  destruct (extract_host_total urlparse input) as [host Hh].
  destruct (base_domain_total host) as [b Hb].
  exists host, b. split; [done|]. split; [done|].
  destruct (is_trusted_total host) as [[] Ht]; [by left|right].
  split; [done|].
  destruct (fetch_final_shape input []) as [log [(msg & Hf & Hm)|(u & t & Hf & _)]];
    exists log; [left; by exists msg|right].
  destruct (extract_host_total urlparse u) as [fh Hfh].
  destruct (base_domain_total fh) as [fb Hfb].
  exists u, t, fh, fb. repeat (split; [done|]).
  destruct (is_trusted_total fh) as [[] ?]; auto.
Qed.


Lemma fetch_final_unfold input host log0 :
  extract_host input = Ret host →
  fetch_final input log0 =
  if negb (truthy host) then (Ret (None, None, Some (py "Empty input")), log0)
  else fetch_loop (candidates input host) None log0.
Proof.
  intros Hh. unfold fetch_final.
  rewrite (bind_lift_ret _ host) by done. by destruct (truthy host).
Qed.

(** *** The fetch, when every candidate fails *)

Lemma fetch_loop_all_fail cands last_err log :
  Forall (λ u, ∀ log', attempt_fails (requests_get log' u)) cands →
  fetch_loop cands last_err log =
  (Ret (None, None,
        Some (py "Cannot access website ("
              ++ format_opt (match last cands with
                             | Some u =>
                                 Some (attempt_error
                                         (requests_get (log ++ removelast cands) u))
                             | None => last_err
                             end)
              ++ py ")")),
   log ++ cands).
Proof.
  intros H. revert last_err log.
  induction H as [|u rest Hu _ IH]; intros last_err log.
  - change (removelast (@nil str)) with (@nil str). by rewrite !app_nil_r.
  - rewrite fetch_loop_cons. specialize (Hu log). unfold attempt_fails in Hu.
    assert (∀ e, attempt_error (requests_get log u) = e →
              fetch_loop rest (Some e) (log ++ [u]) =
              (Ret (None, None,
                    Some (py "Cannot access website ("
                          ++ format_opt
                               (match last (u :: rest) with
                                | Some v =>
                                    Some (attempt_error
                                            (requests_get
                                               (log ++ removelast (u :: rest)) v))
                                | None => last_err
                                end)
                          ++ py ")")),
               log ++ u :: rest)) as Hstep.
    { intros e He. rewrite IH, <- !app_assoc. cbn [app].
      destruct rest as [|v rest]; [by rewrite <- He, app_nil_r|].
      rewrite last_cons_cons. destruct (last (v :: rest)) eqn:El; [done|].
      by apply last_None in El. }
    unfold attempt_error in Hstep.
    destruct (requests_get log u) as [r|e]; [|by apply Hstep].
    destruct (Z.ltb_spec (status_code r) 400); [lia|]. cbn [andb]. by apply Hstep.
Qed.

Lemma startswith_app (p s : str) : startswith p (p ++ s) = true.
Proof. induction p as [|c p IH]; [done|]. cbn. by rewrite Ascii.eqb_refl. Qed.

Lemma contains_prefix (p s : str) : contains p (p ++ s) = true.
Proof.
  destruct (p ++ s) eqn:E; cbn [contains]; rewrite <- E, startswith_app; done.
Qed.

Lemma blank_untrusted : is_trusted [] = Ret false.
Proof. reflexivity. Qed.

Lemma extract_host_blank input :
  forallb isspace input = true → extract_host input = Ret [].
Proof. intros H. unfold extract_host. by rewrite (strip_blank _ H). Qed.

(** ** The claims on [analyze_target] *)

(** C2 (amended): when the trust check [is_trusted] accepts the
    normalized host of the input (it normalizes that host once more and
    looks up the outcome and its root domain in the allowlist), the result
    is OK, GOOD_SAFE, score 90, forced good, with reason "Trusted allowlist
    matched", and no request has been sent. *)
Theorem allowlist_fast_path (input host : str) :
  extract_host input = Ret host → is_trusted host = Ret true →
  ∃ d, run (analyze_target input) = (Ret d, []) ∧
       d !! "status" = Some (VStr (py "OK")) ∧
       d !! "label" = Some (VStr (py "GOOD_SAFE")) ∧
       d !! "score" = Some (VInt 90) ∧
       d !! "forced_good" = Some (VBool true) ∧
       d !! "reason" = Some (VStr (py "Trusted allowlist matched")).
Proof.
  intros Hh Ht. destruct (base_domain_total host) as [b Hb].
  eexists. split; [by apply (analyze_allowlist input host b)|]. done.
Qed.

(** C10: on the allowlist fast path the result holds [final_url] equal to
    ["https://" + host + "/"], [final_host] equal to the input host and
    [final_base_domain] equal to the input root domain, although no
    request has been sent. *)
Theorem allowlist_final_fields (input host b : str) :
  extract_host input = Ret host → base_domain host = Ret b →
  is_trusted host = Ret true →
  ∃ d log, run (analyze_target input) = (Ret d, log) ∧ log = [] ∧
       d !! "final_url" = Some (VStr (py "https://" ++ host ++ py "/")) ∧
       d !! "final_host" = Some (VStr host) ∧
       d !! "final_base_domain" = Some (VStr b) ∧
       d !! "host" = Some (VStr host) ∧
       d !! "base_domain" = Some (VStr b).
Proof.
  intros Hh Hb Ht. eexists _, _.
  split; [by apply (analyze_allowlist input host b)|]. done.
Qed.


(** The record that [quick_risk_from_html] returns when the text
    extraction returns, in closed form. *)
Lemma quick_risk_from_html_unfold (html visible : str) :
  soup_get_text html = Ret visible →
  let text := cleaned_text visible in
  let wc := Z.of_nat (length (split_ws text)) in
  let thin := (wc <? 200)%Z in
  let lorem := contains (py "lorem ipsum") text || contains (py "dolor sit amet") text in
  quick_risk_from_html html
  = Ret (RiskResult ((if thin then 20 else 0) + (if lorem then 30 else 0))%Z
           (dict [("lorem_ipsum", VBool lorem); ("thin_content", VBool thin);
                  ("word_count", VInt wc)])).
Proof.
  intros Hv text wc thin lorem. unfold quick_risk_from_html.
  rewrite Hv. cbn [mbind res_bind].
  fold text. fold wc. fold thin. fold lorem.
  by destruct thin, lorem.
Qed.

(** What the text extraction raises leaves [quick_risk_from_html]: the
    call of [BeautifulSoup] at line 89 stands under no [try]. *)
Lemma quick_risk_propagates (html : str) (e : exn) :
  soup_get_text html = Raise e → quick_risk_from_html html = Raise e.
Proof. intros Hv. unfold quick_risk_from_html. by rewrite Hv. Qed.

(** C6 (the code diverges): the scorer does not produce a risk and signals
    for every HTML input. On markup that the parser rejects, the text
    extraction raises; [quick_risk_from_html] then returns nothing and
    raises the same exception, and so does [analyze_target] when the
    rejected page is the one that the content-scoring path scores, after
    the requests of the fetch. *)
Theorem quick_risk_from_html_raises
    (input host final_url html final_host : str) (log : list str) (e : exn) :
  soup_get_text html = Raise e →
  quick_risk_from_html html = Raise e ∧
  (∀ rr, quick_risk_from_html html ≠ Ret rr) ∧
  (extract_host input = Ret host → is_trusted host = Ret false →
   fetch_final input [] = (Ret (Some final_url, Some html, None), log) →
   extract_host final_url = Ret final_host → is_trusted final_host = Ret false →
   run (analyze_target input) = (Raise e, log) ∧
   ∀ d log', run (analyze_target input) ≠ (Ret d, log')).
Proof.
  intros Hv. pose proof (quick_risk_propagates html e Hv) as Hq.
  split; [done|]. split; [intros rr; by rewrite Hq|].
  intros Hh Ht Hf Hfh Hft.
  rewrite (analyze_scoring_raises input host final_url html final_host log e) by done.
  split; [done|]. intros d log'. discriminate.
Qed.

(** X20: the formula of the scorer, against the specification's wording:
    when the text extraction returns the visible text of a page, the risk
    is 20 if the cleaned text (whitespace runs collapsed to one space, then
    lowercased) has fewer than 200 whitespace-separated tokens, plus 30 if
    it contains "lorem ipsum" or "dolor sit amet"; the signals are exactly
    [word_count] (a number), [thin_content] and [lorem_ipsum] (booleans).
    The cleaning, the count and the search are those of the specification
    ([spec_clean], [spec_word_count], [spec_has_substring]), not the
    code's. *)
Theorem quick_risk_from_html_spec (html visible : str) :
  soup_get_text html = Ret visible →
  let text := spec_clean visible in
  let wc := Z.of_nat (spec_word_count text) in
  let thin := (wc <? 200)%Z in
  ∃ (lorem : bool) (rr : risk_result),
    quick_risk_from_html html = Ret rr ∧
    (lorem = true ↔ spec_has_substring (py "lorem ipsum") text ∨
                    spec_has_substring (py "dolor sit amet") text) ∧
    risk rr = ((if thin then 20 else 0) + (if lorem then 30 else 0))%Z ∧
    signals rr = dict [("lorem_ipsum", VBool lorem); ("thin_content", VBool thin);
                       ("word_count", VInt wc)] ∧
    signals rr !! "word_count" = Some (VInt wc) ∧
    signals rr !! "thin_content" = Some (VBool thin) ∧
    signals rr !! "lorem_ipsum" = Some (VBool lorem) ∧
    dom (signals rr) = {["word_count"; "thin_content"; "lorem_ipsum"]}.
Proof.
  intros Hv text wc thin.
  pose proof (quick_risk_from_html_unfold html visible Hv) as E. cbv zeta in E.
  unfold cleaned_text in E. rewrite cleaned_text_spec, split_ws_spec in E.
  fold text in E. fold wc in E. fold thin in E.
  exists (contains (py "lorem ipsum") text || contains (py "dolor sit amet") text).
  eexists. split; [exact E|]. cbn [risk signals].
  split; [by rewrite orb_true_iff, !contains_spec|].
  repeat (split; [done|]).
  unfold dict. rewrite !dom_list_to_map_L. cbn [fmap list_fmap fst]. set_solver.
Qed.

(** C3 (amended): a result with status OK holds the signals mapping
    exactly when it is not forced good: on the content-scoring path it
    holds the signals of the fetched page with [no_https] added, and on the
    two forced-good paths it has no [signals] field. *)
Theorem signals_field (input : str) (d : gmap string pyval) (log : list str) :
  run (analyze_target input) = (Ret d, log) →
  d !! "status" = Some (VStr (py "OK")) →
  (d !! "forced_good" = Some (VBool true) ∧ d !! "signals" = None) ∨
  (d !! "forced_good" = Some (VBool false) ∧
   ∃ final_url html rr,
     fetch_final input [] = (Ret (Some final_url, Some html, None), log) ∧
     quick_risk_from_html html = Ret rr ∧
     d !! "signals"
     = Some (VDict (<["no_https" := VBool (negb (startswith (py "https://")
                                                   (lower final_url)))]>
                      (signals rr)))).
Proof.
  intros Hrun Hok.
  destruct (analyze_target_cases input)
    as (host & b & Hh & Hb & [Ht|(Ht & log' & [(msg & Hf & Hm)|
         (fu & html & fh & fb & Hf & Hfh & Hfb & [Hft|Hft])])]).
  - rewrite (analyze_allowlist input host b) in Hrun by done.
    injection Hrun as <- <-. by left.
  - rewrite (analyze_error input host b msg log') in Hrun by done.
    injection Hrun as <- <-. discriminate Hok.
  - rewrite (analyze_redirect input host b fu html fh fb log') in Hrun by done.
    injection Hrun as <- <-. by left.
  - destruct (quick_risk_from_html html) as [rr|e] eqn:Hq.
    + rewrite (analyze_scored input host b fu html fh fb log' rr) in Hrun by done.
      injection Hrun as <- <-. right. split; [done|]. by exists fu, html, rr.
    + rewrite (analyze_scoring_raises input host fu html fh log' e) in Hrun by done.
      discriminate Hrun.
Qed.

(** C5: on the content-scoring path, when the text extraction returns the
    visible text of the page, the score is [max(0, 100 - total)], where
    [total] is the risk of the page plus 25 when the lowercased final URL
    does not start with ["https://"]; the total is the sum of the points
    of the triggered signals, so that a larger set of triggered signals
    never gives a larger score. *)
Theorem score_from_risk
    (input host final_url html final_host visible : str) (log : list str) :
  extract_host input = Ret host → is_trusted host = Ret false →
  fetch_final input [] = (Ret (Some final_url, Some html, None), log) →
  extract_host final_url = Ret final_host → is_trusted final_host = Ret false →
  soup_get_text html = Ret visible →
  let text := cleaned_text visible in
  let thin := (Z.of_nat (length (split_ws text)) <? 200)%Z in
  let lorem := contains (py "lorem ipsum") text || contains (py "dolor sit amet") text in
  let no_https := negb (startswith (py "https://") (lower final_url)) in
  ∃ d sig rr,
    quick_risk_from_html html = Ret rr ∧
    let total := (risk rr + (if no_https then 25 else 0))%Z in
    run (analyze_target input) = (Ret d, log) ∧
    d !! "score" = Some (VInt (Z.max 0 (100 - total))) ∧
    d !! "label" = Some (VStr (label_from_score (Z.max 0 (100 - total)))) ∧
    d !! "signals" = Some (VDict sig) ∧
    sig !! "thin_content" = Some (VBool thin) ∧
    sig !! "lorem_ipsum" = Some (VBool lorem) ∧
    sig !! "no_https" = Some (VBool no_https) ∧
    total = risk_points thin lorem no_https ∧
    ∀ t l n t' l' n' : bool,
      (t = true → t' = true) → (l = true → l' = true) → (n = true → n' = true) →
      (Z.max 0 (100 - risk_points t' l' n') ≤ Z.max 0 (100 - risk_points t l n))%Z.
Proof.
  intros Hh Ht Hf Hfh Hft Hv text thin lorem no_https.
  destruct (base_domain_total host) as [b Hb].
  destruct (base_domain_total final_host) as [fb Hfb].
  pose proof (quick_risk_from_html_unfold html visible Hv) as E. cbv zeta in E.
  fold text in E. fold thin in E. fold lorem in E.
  eexists _, _, _. split; [exact E|]. intros total.
  split; [by eapply analyze_scored|].
  split; [done|]. split; [done|]. split; [done|]. cbn [signals].
  split; [by rewrite lookup_insert_ne|]. split; [by rewrite lookup_insert_ne|].
  split; [by rewrite lookup_insert_eq|]. split.
  - subst total. cbn [risk]. unfold risk_points. lia.
  - intros t l n t' l' n' H1 H2 H3. unfold risk_points.
    destruct t, l, n, t', l', n';
      try (specialize (H1 eq_refl)); try (specialize (H2 eq_refl));
      try (specialize (H3 eq_refl)); try discriminate; lia.
Qed.

(** C7: the result has status ERROR exactly when the pipeline reaches the
    fetch (the input host is not trusted) and the fetch returns an error;
    the result then carries that error and neither score nor label. A
    blank input gives the error "Empty input". When every candidate fails
    by an exception or a status of 400 or more, the error is "Cannot
    access website (...)" around the error of the last candidate. *)
Theorem error_status (input : str) :
  ∃ out log,
    run (analyze_target input) = (out, log) ∧
    ((∃ d, out = Ret d ∧ d !! "status" = Some (VStr (py "ERROR"))) ↔
     ∃ host msg, extract_host input = Ret host ∧ is_trusted host = Ret false ∧
                 fetch_final input [] = (Ret (None, None, Some msg), log)) ∧
    (∀ d, out = Ret d → d !! "status" = Some (VStr (py "ERROR")) →
     ∃ msg, fetch_final input [] = (Ret (None, None, Some msg), log) ∧
            d !! "error" = Some (VStr msg) ∧
            d !! "score" = None ∧ d !! "label" = None) ∧
    (forallb isspace input = true →
     ∃ d, out = Ret d ∧
          d !! "status" = Some (VStr (py "ERROR")) ∧
          d !! "error" = Some (VStr (py "Empty input"))) ∧
    (∀ host, extract_host input = Ret host → truthy host = true →
             is_trusted host = Ret false →
             Forall (λ u, ∀ log', attempt_fails (requests_get log' u))
               (candidates input host) →
             let msg := py "Cannot access website ("
                        ++ attempt_error
                             (requests_get (removelast (candidates input host))
                                (py "http://" ++ host ++ py "/"))
                        ++ py ")" in
             ∃ d, out = Ret d ∧
                  d !! "status" = Some (VStr (py "ERROR")) ∧
                  d !! "error" = Some (VStr msg) ∧
                  contains (py "Cannot access website") msg = true).
Proof.
  destruct (analyze_target_cases input)
    as (host & b & Hh & Hb & [Ht|(Ht & log' & [(msg & Hf & Hm)|
         (fu & html & fh & fb & Hf & Hfh & Hfb & Hft)])]).
  - (* allowlist *)
    eexists _, _. split; [by apply (analyze_allowlist input host b)|].
    split; [split|split; [|split]].
    + intros (d & [= <-] & Hs). discriminate Hs.
    + intros (host' & msg & Hh' & Ht' & _). congruence.
    + intros d [= <-] Hs. discriminate Hs.
    + intros Hblank. rewrite (extract_host_blank input Hblank) in Hh.
      injection Hh as <-. rewrite blank_untrusted in Ht. discriminate Ht.
    + intros host' Hh'. congruence.
  - (* the fetch fails *)
    eexists _, _. split; [by apply (analyze_error input host b msg log')|].
    split; [split; [intros _; by exists host, msg|intros _; by eexists]|].
    split; [intros d [= <-] _; by exists msg|]. split.
    + intros Hblank. eexists. split; [done|]. split; [done|].
      rewrite (fetch_final_unfold input []) in Hf by by apply extract_host_blank.
      cbn [truthy negb] in Hf.
      by injection Hf as <- <-.
    + intros host' Hh' Hty _ Hall msg'. eexists. split; [done|]. split; [done|].
      assert (host' = host) as -> by congruence.
      rewrite (fetch_final_unfold input host) in Hf by done.
      rewrite Hty in Hf. cbn [negb] in Hf.
      rewrite (fetch_loop_all_fail (candidates input host)) in Hf by done.
      assert (last (candidates input host) = Some (py "http://" ++ host ++ py "/")) as Hlast.
      { unfold candidates. by destruct (contains _ input). }
      rewrite Hlast in Hf. cbn [format_opt] in Hf. injection Hf as <- <-.
      split; [done|]. subst msg'. rewrite <- (app_assoc (py "Cannot access website") (py " (")).
      apply contains_prefix.
  - (* the fetch succeeds: no error is reported, whatever follows *)
    assert (Hcase : ∃ out, run (analyze_target input) = (out, log') ∧
              ∀ d, out = Ret d → d !! "status" ≠ Some (VStr (py "ERROR"))).
    { destruct Hft as [Hft|Hft].
      - eexists. split; [by eapply analyze_redirect|]. intros d [= <-]. done.
      - destruct (quick_risk_from_html html) as [rr|e] eqn:Hq.
        + eexists. split; [by eapply analyze_scored|]. intros d [= <-]. done.
        + eexists. split; [by eapply analyze_scoring_raises|]. done. }
    destruct Hcase as (out & Hrun & Hok).
    exists out, log'. split; [done|].
    split; [split|split; [|split]].
    + intros (d & -> & Hs). by destruct (Hok d).
    + intros (host' & msg & _ & _ & Hf'). congruence.
    + intros d -> Hs. by destruct (Hok d).
    + intros Hblank. exfalso.
      rewrite (fetch_final_unfold input []) in Hf by by apply extract_host_blank.
      cbn [truthy negb] in Hf.
      discriminate Hf.
    + intros host' Hh' Hty _ Hall. exfalso.
      assert (host' = host) as -> by congruence.
      rewrite (fetch_final_unfold input host) in Hf by done.
      rewrite Hty in Hf. cbn [negb] in Hf.
      rewrite (fetch_loop_all_fail (candidates input host)) in Hf by done.
      discriminate Hf.
Qed.

End PipelineFacts.

(** * The pipeline on concrete inputs *)

(** Closes a closed equation between strings, booleans or fetch results by
    running both sides. *)
Ltac run_it := vm_compute; reflexivity.

Example extract_host_examples :
  extract_host CPython.urlparse (py "example.com/path") = Ret (py "example.com") ∧
  extract_host CPython.urlparse (py "  HTTP://User:pw@WWW.Example.co.uk:8080/p?x=1#f ")
  = Ret (py "www.example.co.uk") ∧
  extract_host CPython.urlparse (py "Example.COM") = Ret (py "example.com") ∧
  extract_host CPython.urlparse (py "/") = Ret [].
Proof. repeat split; run_it. Qed.

Example base_domain_examples :
  base_domain (py "www.example.co.uk") = Ret (py "example.co.uk") ∧
  base_domain (py "a.b.example.com.") = Ret (py "example.com") ∧
  base_domain (py "co.uk") = Ret (py "co.uk") ∧
  base_domain (py "localhost") = Ret (py "localhost").
Proof. repeat split; run_it. Qed.

Example cleaned_text_example :
  plain_text (py "  Lorem   IPSUM dolor ") = Ret (py "Lorem   IPSUM dolor") ∧
  cleaned_text (py "Lorem   IPSUM dolor") = py "lorem ipsum dolor" ∧
  spec_clean (py "Lorem   IPSUM dolor") = py "lorem ipsum dolor" ∧
  spec_word_count (py "lorem ipsum dolor") = 3 ∧
  split_ws (py "lorem ipsum dolor") = [py "lorem"; py "ipsum"; py "dolor"] ∧
  split (".") (py "a..b") = [py "a"; []; py "b"] ∧
  str_of_int 404 = py "404".
Proof. repeat split; run_it. Qed.

Lemma extract_host_never_raises_witness :
  extract_host CPython.urlparse (py "   ") = Ret [] ∧
  extract_host CPython.urlparse (py "http://[::1") = Ret (py "http://[::1").
Proof.
  split.
  - destruct (extract_host_never_raises CPython.urlparse (py "   ")) as (_ & H & _).
    apply H. run_it.
  - destruct (extract_host_never_raises CPython.urlparse (py "http://[::1")) as (_ & _ & H).
    apply (H (Exn "ValueError" (py "Invalid IPv6 URL"))); run_it.
Defined.

Lemma base_domain_idempotent_iff_witness :
  base_domain (py "www.example.co.uk") = Ret (py "example.co.uk") ∧
  base_domain (py "example.co.uk") = Ret (py "example.co.uk").
Proof.
  destruct (base_domain_idempotent_iff (py "www.example.co.uk")) as (r & Hr & Hiff).
  assert (E : base_domain (py "www.example.co.uk") = Ret (py "example.co.uk"))
    by run_it.
  rewrite E in Hr. injection Hr as <-.
  split; [run_it|]. apply Hiff. discriminate.
Defined.

Lemma allowlist_fast_path_witness :
  ∃ d, run (analyze_target CPython.urlparse net_unreachable plain_text (py "youtube.com"))
       = (Ret d, []) ∧
       d !! "status" = Some (VStr (py "OK")) ∧
       d !! "label" = Some (VStr (py "GOOD_SAFE")) ∧
       d !! "score" = Some (VInt 90) ∧
       d !! "forced_good" = Some (VBool true) ∧
       d !! "reason" = Some (VStr (py "Trusted allowlist matched")).
Proof.
  apply (allowlist_fast_path CPython.urlparse net_unreachable plain_text
           (py "youtube.com") (py "youtube.com")); run_it.
Defined.

(** C2, refuted: the host of [https:///a/b.youtube.com] is
    [a/b.youtube.com], whose root domain [youtube.com] is in the allowlist;
    the trust check normalizes that host again, to [a], and rejects it, so
    that three requests are sent and, on a network that cannot be reached,
    the result is an error. *)
Lemma allowlist_fast_path_counterexample :
  extract_host CPython.urlparse (py "https:///a/b.youtube.com") = Ret (py "a/b.youtube.com") ∧
  base_domain (py "a/b.youtube.com") = Ret (py "youtube.com") ∧
  py "youtube.com" ∈ TRUSTED ∧
  extract_host CPython.urlparse (py "a/b.youtube.com") = Ret (py "a") ∧
  is_trusted CPython.urlparse (py "a/b.youtube.com") = Ret false ∧
  ∃ d, run (analyze_target CPython.urlparse net_unreachable plain_text
              (py "https:///a/b.youtube.com"))
       = (Ret d, [py "https:///a/b.youtube.com"; py "https://a/b.youtube.com/";
                  py "http://a/b.youtube.com/"]) ∧
       d !! "status" = Some (VStr (py "ERROR")) ∧
       d !! "label" = None ∧ d !! "score" = None ∧
       ¬ (∃ d', run (analyze_target CPython.urlparse net_unreachable plain_text
                       (py "https:///a/b.youtube.com")) = (Ret d', [])).
Proof.
  split; [run_it|]. split; [run_it|].
  split; [refine (bool_decide_unpack _ _); vm_compute; exact I|].
  split; [run_it|]. split; [run_it|].
  pose proof (analyze_error CPython.urlparse net_unreachable plain_text
                (py "https:///a/b.youtube.com") (py "a/b.youtube.com") (py "youtube.com")
                (py "Cannot access website (Name or service not known)")
                [py "https:///a/b.youtube.com"; py "https://a/b.youtube.com/";
                 py "http://a/b.youtube.com/"]) as Hrun.
  eexists. split; [apply Hrun; run_it|].
  repeat (split; [done|]). intros [d' Hd'].
  rewrite Hrun in Hd' by run_it. discriminate Hd'.
Qed.

(** Every host of the allowlist takes the fast path, whatever the network
    and the page. *)
Lemma allowlist_hosts_fast_path requests_get soup_get_text (h : str) :
  h ∈ TRUSTED →
  ∃ d, run (analyze_target CPython.urlparse requests_get soup_get_text h) = (Ret d, []) ∧
       d !! "label" = Some (VStr (py "GOOD_SAFE")) ∧
       d !! "score" = Some (VInt 90) ∧
       d !! "forced_good" = Some (VBool true).
Proof.
  intros Hh.
  assert (extract_host CPython.urlparse h = Ret h ∧
          is_trusted CPython.urlparse h = Ret true) as [E T].
  { unfold TRUSTED in Hh.
    repeat (apply elem_of_union in Hh as [Hh|Hh]);
      apply elem_of_singleton in Hh; subst h; split; run_it. }
  destruct (base_domain_total h) as [b Hb].
  eexists. split; [exact (analyze_allowlist _ requests_get soup_get_text h h b E Hb T)|].
  repeat split.
Qed.

Lemma allowlist_final_fields_witness :
  ∃ d log, run (analyze_target CPython.urlparse net_unreachable plain_text
                  (py "https://www.YouTube.com/watch?v=1")) = (Ret d, log) ∧
       log = [] ∧
       d !! "final_url" = Some (VStr (py "https://" ++ py "www.youtube.com" ++ py "/")) ∧
       d !! "final_host" = Some (VStr (py "www.youtube.com")) ∧
       d !! "final_base_domain" = Some (VStr (py "youtube.com")) ∧
       d !! "host" = Some (VStr (py "www.youtube.com")) ∧
       d !! "base_domain" = Some (VStr (py "youtube.com")).
Proof.
  apply (allowlist_final_fields CPython.urlparse net_unreachable plain_text
           (py "https://www.YouTube.com/watch?v=1") (py "www.youtube.com")
           (py "youtube.com")); run_it.
Defined.



(** The page of the specification's scenario: the placeholder text served
    over plain http has risk 20 + 30 + 25, score 25, label LOW_QUALITY. *)
Lemma score_from_risk_witness :
  ∃ d, run (analyze_target CPython.urlparse
              (net_serving (py "http://example.org/") (py "Lorem ipsum dolor sit amet"))
              plain_text (py "http://example.org"))
       = (Ret d, [py "http://example.org"]) ∧
       d !! "score" = Some (VInt 25) ∧
       d !! "label" = Some (VStr (py "LOW_QUALITY")).
Proof.
  destruct (score_from_risk CPython.urlparse
              (net_serving (py "http://example.org/") (py "Lorem ipsum dolor sit amet"))
              plain_text (py "http://example.org") (py "example.org")
              (py "http://example.org/") (py "Lorem ipsum dolor sit amet")
              (py "example.org") (py "Lorem ipsum dolor sit amet")
              [py "http://example.org"])
    as (d & sig & rr & _ & H); [run_it..|].
  cbv zeta in H. destruct H as (Hd & Hscore & Hlabel & _ & _ & _ & _ & Htotal & _).
  exists d. split; [exact Hd|].
  rewrite Htotal in Hscore, Hlabel.
  match type of Hscore with
  | _ = Some (VInt ?x) =>
      assert (x = 25%Z) as E by run_it; rewrite E in Hscore, Hlabel
  end.
  exact (conj Hscore Hlabel).
Defined.

(** C3, refuted: the result for [youtube.com] is OK and has no [signals]
    field. *)
Lemma signals_field_counterexample :
  ∃ d, run (analyze_target CPython.urlparse net_unreachable plain_text (py "youtube.com"))
       = (Ret d, []) ∧
       d !! "status" = Some (VStr (py "OK")) ∧
       d !! "signals" = None.
Proof.
  eexists. split; [|split].
  - apply (analyze_allowlist CPython.urlparse net_unreachable plain_text
             (py "youtube.com") (py "youtube.com") (py "youtube.com")); run_it.
  - done.
  - done.
Qed.

Lemma signals_field_witness :
  ∃ d rr,
    run (analyze_target CPython.urlparse
           (net_serving (py "http://example.org/") (py "Lorem ipsum dolor sit amet"))
           plain_text (py "http://example.org"))
    = (Ret d, [py "http://example.org"]) ∧
    d !! "forced_good" = Some (VBool false) ∧
    quick_risk_from_html plain_text (py "Lorem ipsum dolor sit amet") = Ret rr ∧
    d !! "signals" = Some (VDict (<["no_https" := VBool true]> (signals rr))).
Proof.
  pose proof (quick_risk_from_html_unfold plain_text
                (py "Lorem ipsum dolor sit amet") (py "Lorem ipsum dolor sit amet")) as Hq.
  cbv zeta in Hq.
  match type of Hq with
  | _ → _ = Ret ?rr =>
      pose proof (analyze_scored CPython.urlparse
                    (net_serving (py "http://example.org/") (py "Lorem ipsum dolor sit amet"))
                    plain_text (py "http://example.org") (py "example.org") (py "example.org")
                    (py "http://example.org/") (py "Lorem ipsum dolor sit amet")
                    (py "example.org") (py "example.org") [py "http://example.org"] rr) as Hd
  end.
  cbv zeta in Hd.
  match type of Hd with
  | _ → _ → _ → _ → _ → _ → _ → _ → _ = (Ret ?d, _) =>
      destruct (signals_field CPython.urlparse
                  (net_serving (py "http://example.org/") (py "Lorem ipsum dolor sit amet"))
                  plain_text (py "http://example.org") d [py "http://example.org"])
        as [[Hfg _]|(Hfg & fu & html & rr' & Hf & Hq' & Hsig)];
        [apply Hd; first [apply Hq; run_it|run_it]|done|discriminate Hfg|];
        exists d, rr'; split; [apply Hd; first [apply Hq; run_it|run_it]|]
  end.
  split; [exact Hfg|].
  assert (fetch_final CPython.urlparse
            (net_serving (py "http://example.org/") (py "Lorem ipsum dolor sit amet"))
            (py "http://example.org") []
          = (Ret (Some (py "http://example.org/"), Some (py "Lorem ipsum dolor sit amet"),
                  None), [py "http://example.org"])) as Hf' by run_it.
  rewrite Hf' in Hf. injection Hf as <- <-.
  exact (conj Hq' Hsig).
Defined.

(** C6, at the rejected page: the scorer raises on [<![x]>], and so does
    the analysis of a site that serves this page. *)
Lemma quick_risk_from_html_raises_witness :
  quick_risk_from_html rejecting_text (py "<![x]>")
  = Raise (Exn "ParserRejectedMarkup" (py "unknown status keyword 'x' in marked section")) ∧
  run (analyze_target CPython.urlparse
         (net_serving (py "https://example.org/") (py "<![x]>"))
         rejecting_text (py "example.org"))
  = (Raise (Exn "ParserRejectedMarkup" (py "unknown status keyword 'x' in marked section")),
     [py "https://example.org/"]).
Proof.
  destruct (quick_risk_from_html_raises CPython.urlparse
              (net_serving (py "https://example.org/") (py "<![x]>"))
              rejecting_text (py "example.org") (py "example.org")
              (py "https://example.org/") (py "<![x]>") (py "example.org")
              [py "https://example.org/"]
              (Exn "ParserRejectedMarkup"
                 (py "unknown status keyword 'x' in marked section")))
    as (Hq & _ & Hrun); [run_it|].
  split; [exact Hq|].
  destruct Hrun as [Hrun _]; [run_it..|]. exact Hrun.
Defined.

Lemma quick_risk_from_html_spec_witness :
  ∃ rr, quick_risk_from_html plain_text (py "  Lorem   IPSUM dolor sit amet ") = Ret rr ∧
        risk rr = 50%Z ∧
        signals rr !! "word_count" = Some (VInt 5) ∧
        signals rr !! "thin_content" = Some (VBool true) ∧
        signals rr !! "lorem_ipsum" = Some (VBool true).
Proof.
  destruct (quick_risk_from_html_spec plain_text (py "  Lorem   IPSUM dolor sit amet ")
              (py "Lorem   IPSUM dolor sit amet"))
    as (lorem & rr & Hq & Hlorem & Hrisk & _ & Hwc & Hthin & Hl & _); [run_it|].
  assert (lorem = true) as ->.
  { apply Hlorem. left. exists [], (py " dolor sit amet"). run_it. }
  assert (spec_word_count (spec_clean (py "Lorem   IPSUM dolor sit amet")) = 5) as E
    by run_it.
  rewrite E in Hrisk, Hwc, Hthin.
  exists rr. exact (conj Hq (conj Hrisk (conj Hwc (conj Hthin Hl)))).
Defined.

Lemma error_status_witness :
  (∃ d log, run (analyze_target CPython.urlparse net_unreachable plain_text (py "   "))
            = (Ret d, log) ∧
            d !! "status" = Some (VStr (py "ERROR")) ∧
            d !! "error" = Some (VStr (py "Empty input"))) ∧
  (∃ d log, run (analyze_target CPython.urlparse net_unreachable plain_text (py "example.org"))
            = (Ret d, log) ∧
            d !! "status" = Some (VStr (py "ERROR")) ∧
            d !! "error"
            = Some (VStr (py "Cannot access website ("
                          ++ py "Name or service not known" ++ py ")"))).
Proof.
  split.
  - destruct (error_status CPython.urlparse net_unreachable plain_text (py "   "))
      as (out & log & Hd & _ & _ & Hblank & _).
    destruct Hblank as (d & -> & Hs & He); [run_it|].
    exists d, log. exact (conj Hd (conj Hs He)).
  - destruct (error_status CPython.urlparse net_unreachable plain_text (py "example.org"))
      as (out & log & Hd & _ & _ & _ & Hall).
    destruct (Hall (py "example.org")) as (d & -> & Hs & He & _);
      [run_it|run_it|run_it|repeat constructor|].
    exists d, log. exact (conj Hd (conj Hs He)).
Defined.

(** * Further properties *)

(** ** The shape of a normalized host *)

Lemma lower_char_slash c : lower_char c = "/"%char → c = "/"%char.
Proof. destruct c as [[] [] [] [] [] [] [] []]; vm_compute; congruence. Qed.

Lemma lower_char_colon c : lower_char c = ":"%char → c = ":"%char.
Proof. destruct c as [[] [] [] [] [] [] [] []]; vm_compute; congruence. Qed.

Lemma lower_char_at c : lower_char c = "@"%char → c = "@"%char.
Proof. destruct c as [[] [] [] [] [] [] [] []]; vm_compute; congruence. Qed.

Lemma lower_head s c : head (lower s) = Some c → ∃ c0, head s = Some c0 ∧ c = lower_char c0.
Proof. destruct s as [|a s]; [done|]. intros [= <-]. by exists a. Qed.

Lemma lower_last s c : last (lower s) = Some c → ∃ c0, last s = Some c0 ∧ c = lower_char c0.
Proof.
  destruct s as [|a s _] using rev_ind; [done|].
  unfold lower. rewrite map_app. cbn [map]. rewrite !last_snoc.
  intros [= <-]. by exists a.
Qed.

Lemma lower_Forall (P : ascii → Prop) s :
  (∀ c, P c → P (lower_char c)) → Forall P s → Forall P (lower s).
Proof. intros HP. unfold lower. induction 1; simpl; constructor; auto. Qed.

Lemma split_Forall (P : ascii → Prop) sep s :
  Forall P s → Forall (Forall P) (split sep s).
Proof.
  induction 1 as [|c s Hc Hs IH]; cbn [split]; [by repeat constructor|].
  destruct (Ascii.eqb c sep); [by constructor|].
  pose proof (split_ne sep s). destruct (split sep s) as [|p ps]; [done|].
  apply Forall_cons in IH as [Hp Hps]. by repeat constructor.
Qed.

Lemma index_elem {A} (l : list A) i x : index l i = Ret x → x ∈ l.
Proof.
  unfold index. destruct (_ <? 0)%Z; [done|].
  destruct (l !! _) eqn:E; [|done]. intros [= <-]. by eapply list_elem_of_lookup_2.
Qed.

Section HostShape.

Variable urlparse : str → res parse_result.

(** What [extract_host] returns, by the way taken. *)
Lemma extract_host_cases user_input :
  let s := strip user_input in
  (truthy s = false ∧ extract_host urlparse user_input = Ret []) ∨
  (truthy s = true ∧
   ((∃ e, urlparse (s_for_parse user_input) = Raise e ∧
          extract_host urlparse user_input = Ret (strip_char "/" (strip (lower s)))) ∨
    (∃ p h1 h2,
       urlparse (s_for_parse user_input) = Ret p ∧
       h1 ∈ split "@" (strip (if truthy (netloc p) then netloc p else path p)) ∧
       h2 ∈ split ":" h1 ∧
       extract_host urlparse user_input = Ret (lower (strip_char "/" (strip h2)))))).
Proof.
  intros s. unfold extract_host. fold s.
  destruct (truthy s) eqn:Hs; cbn [negb]; [right|by left]. split; [done|].
  change (if negb (contains (py "://") s) then py "https://" ++ s else s)
    with (s_for_parse user_input).
  destruct (urlparse (s_for_parse user_input)) as [p|e]; [right|left; by exists e].
  cbn [mbind res_bind try_except].
  set (h0 := strip _).
  destruct (index (split "@" h0) (-1)) as [h1|e1] eqn:E1.
  2:{ destruct (index_total (split "@" h0) (-1)) as [x Hx].
      { pose proof (split_length "@" h0). lia. }
      congruence. }
  cbn [mbind res_bind].
  destruct (index (split ":" h1) 0) as [h2|e2] eqn:E2.
  2:{ destruct (index_total (split ":" h1) 0) as [x Hx].
      { pose proof (split_length ":" h1). lia. }
      congruence. }
  exists p, h1, h2. split; [done|].
  split; [by apply index_elem in E1|]. split; [by apply index_elem in E2|done].
Qed.

(** X1: a normalized host is lowercase and neither begins nor ends with a
    slash, whatever the input and whatever [urlparse] does. *)
Theorem extract_host_normal_form (user_input : str) :
  ∃ host, extract_host urlparse user_input = Ret host ∧
          lower host = host ∧
          head host ≠ Some "/"%char ∧ last host ≠ Some "/"%char.
Proof.
  destruct (extract_host_cases user_input)
    as [[_ E]|[_ [(e & _ & E)|(p & h1 & h2 & _ & _ & _ & E)]]];
    rewrite E; eexists; (split; [reflexivity|]).
  - done.
  - split; [apply lower_fixed, strip_by_Forall, strip_by_Forall, lower_lowered|].
    split.
    + intros H. apply strip_by_head in H. by rewrite Ascii.eqb_refl in H.
    + intros H. apply strip_by_last in H. by rewrite Ascii.eqb_refl in H.
  - split; [apply lower_fixed, lower_lowered|]. split.
    + intros (c0 & H & Hc)%lower_head. symmetry in Hc. apply lower_char_slash in Hc.
      subst c0. apply strip_by_head in H. by rewrite Ascii.eqb_refl in H.
    + intros (c0 & H & Hc)%lower_last. symmetry in Hc. apply lower_char_slash in Hc.
      subst c0. apply strip_by_last in H. by rewrite Ascii.eqb_refl in H.
Qed.

(** X2: when [urlparse] returns, the host holds neither ["@"] nor [":"]:
    credentials and port are gone. *)
Theorem extract_host_no_credentials_no_port (user_input : str) (p : parse_result) :
  urlparse (s_for_parse user_input) = Ret p →
  ∃ host, extract_host urlparse user_input = Ret host ∧
          ("@"%char ∉ host) ∧ (":"%char ∉ host).
Proof.
  intros Hp.
  destruct (extract_host_cases user_input)
    as [[_ E]|[_ [(e & He & _)|(p' & h1 & h2 & _ & H1 & H2 & E)]]].
  - rewrite E. eexists. split; [reflexivity|]. split; by intros ?%elem_of_nil.
  - congruence.
  - rewrite E. eexists. split; [reflexivity|].
    assert (Forall (λ c, c ≠ "@"%char) h1) as Hat1.
    { pose proof (split_no_sep "@" (strip (if truthy (netloc p') then netloc p' else path p')))
        as Hs.
      eapply Forall_forall in Hs; [|exact H1]. apply Forall_forall. by intros c Hc ->. }
    assert (Forall (λ c, c ≠ "@"%char) h2) as Hat2.
    { pose proof (split_Forall _ ":" h1 Hat1) as Hs. by eapply Forall_forall in Hs. }
    assert (Forall (λ c, c ≠ ":"%char) h2) as Hcol2.
    { pose proof (split_no_sep ":" h1) as Hs.
      eapply Forall_forall in Hs; [|exact H2]. apply Forall_forall. by intros c Hc ->. }
    split.
    + intros Hin.
      assert (Forall (λ c, c ≠ "@"%char) (lower (strip_char "/" (strip h2)))) as HF.
      { apply lower_Forall; [intros c Hc Hl; by apply lower_char_at in Hl|].
        by apply strip_by_Forall, strip_by_Forall. }
      rewrite Forall_forall in HF. by apply (HF _ Hin).
    + intros Hin.
      assert (Forall (λ c, c ≠ ":"%char) (lower (strip_char "/" (strip h2)))) as HF.
      { apply lower_Forall; [intros c Hc Hl; by apply lower_char_colon in Hl|].
        by apply strip_by_Forall, strip_by_Forall. }
      rewrite Forall_forall in HF. by apply (HF _ Hin).
Qed.

End HostShape.

(** ** The labels of a root domain *)

Lemma split_join_drop n (parts : list str) :
  (n < length parts)%nat → Forall (λ p, "."%char ∉ p) parts →
  split "." (join "." (drop n parts)) = drop n parts.
Proof.
  intros Hn Hsep. apply split_join; [|by apply Forall_drop].
  intros E. apply (f_equal length) in E. rewrite length_drop in E. simpl in E. lia.
Qed.

(** X3: a root domain is lowercase, is an end of the host (lowercased, dots
    trimmed) and has at most three labels, at most two when the last two
    labels of the host are not a listed suffix. *)
Theorem base_domain_labels (h : str) :
  ∃ r, base_domain h = Ret r ∧
       lower r = r ∧
       r `suffix_of` strip_char "." (lower h) ∧
       (length (split "." r) ≤ 3)%nat ∧
       (∀ p2 p1, index (split "." (strip_char "." (lower h))) (-2) = Ret p2 →
                 index (split "." (strip_char "." (lower h))) (-1) = Ret p1 →
                 ((p2, p1) ∉ two_part_tlds) → (length (split "." r) ≤ 2)%nat).
Proof.
  destruct (base_domain_total h) as [r Hr]. exists r. split; [done|].
  pose proof (base_domain_suffix h r Hr) as Hsuf.
  split.
  { apply lower_fixed. eapply suffix_Forall; [done|].
    apply strip_by_Forall, lower_lowered. }
  split; [done|].
  pose proof (base_domain_cases h) as Hc. cbv zeta in Hc.
  set (parts := split "." (strip_char "." (lower h))) in *.
  pose proof (split_no_sep "." (strip_char "." (lower h))) as Hsep. fold parts in Hsep.
  destruct Hc as [[Hlen E]|(Hlen & p2 & p1 & Hp2 & Hp1 & [[Htld E]|[Htld E]])];
    rewrite E in Hr; injection Hr as <-.
  - fold parts. split; [lia|]. intros; lia.
  - rewrite split_join_drop, length_drop by (done || lia). split; [lia|].
    intros q2 q1 Hq2 Hq1 Hq.
    pose proof (index_from_end parts 2 p2 ltac:(lia) Hp2) as I2.
    pose proof (index_from_end parts 1 p1 ltac:(lia) Hp1) as I1.
    change (- Z.of_nat 2)%Z with (-2)%Z in I2.
    change (- Z.of_nat 1)%Z with (-1)%Z in I1. congruence.
  - rewrite split_join_drop, length_drop by (done || lia). split; [lia|]. intros; lia.
Qed.

Lemma join_last sep (ps : list str) p c :
  last p = Some c → last (join sep (ps ++ [p])) = Some c.
Proof.
  intros Hp. induction ps as [|q ps IH]; [done|].
  cbn [app]. rewrite join_cons by (by destruct ps).
  rewrite last_app, last_cons, IH. done.
Qed.

Lemma join_Forall (P : ascii → Prop) sep (ps : list str) :
  P sep → Forall (Forall P) ps → Forall P (join sep ps).
Proof.
  intros Hsep. induction 1 as [|p ps Hp Hps IH]; [done|].
  destruct ps as [|q ps]; [done|]. rewrite join_cons by done.
  apply Forall_app. split; [done|]. by constructor.
Qed.

(** A host written as labels that are not empty, hold no dot and are
    lowercase is its own normal form, and splits back into its labels. *)
Lemma labels_normal (ls : list str) :
  ls ≠ [] →
  Forall (λ p, p ≠ [] ∧ ("."%char ∉ p) ∧ lower p = p) ls →
  strip_char "." (lower (join "." ls)) = join "." ls ∧
  split "." (join "." ls) = ls.
Proof.
  intros Hne Hls. split.
  - rewrite lower_fixed.
    2:{ apply join_Forall; [done|]. eapply Forall_impl; [exact Hls|].
        intros p (_ & _ & Hp). rewrite <- Hp. apply lower_lowered. }
    apply strip_by_fixed.
    + intros c Hc. apply dot_eqb_false. intros ->.
      destruct ls as [|p ps]; [done|]. apply Forall_cons in Hls as [(Hp0 & Hp1 & _) _].
      destruct p as [|a p]; [done|]. rewrite (join_head _ _ _ a) in Hc by done.
      injection Hc as ->. apply Hp1. by left.
    + intros c Hc. apply dot_eqb_false. intros ->.
      destruct ls as [|p ps _] using rev_ind; [done|].
      apply Forall_app in Hls as [_ [(Hp0 & Hp1 & _) _]%Forall_cons].
      destruct (last p) as [a|] eqn:El; [|by apply last_None in El].
      rewrite (join_last _ _ _ a) in Hc by done. injection Hc as ->.
      apply Hp1. apply last_Some in El as [p' ->]. apply elem_of_app. right. by left.
  - apply split_join; [done|]. eapply Forall_impl; [exact Hls|]. by intros p (_ & ? & _).
Qed.

(** X4: on a host made of labels that are not empty, hold no dot and are
    lowercase, the root domain is the host itself when there are at most
    two labels, the last three labels when the last two are a listed
    suffix, and the last two labels otherwise. *)
Theorem base_domain_of_labels (ls : list str) :
  ls ≠ [] →
  Forall (λ p, p ≠ [] ∧ ("."%char ∉ p) ∧ lower p = p) ls →
  ((length ls ≤ 2)%nat → base_domain (join "." ls) = Ret (join "." ls)) ∧
  (∀ pre a b c, ls = pre ++ [a; b; c] → (b, c) ∈ two_part_tlds →
                base_domain (join "." ls) = Ret (join "." [a; b; c])) ∧
  (∀ pre a b c, ls = pre ++ [a; b; c] → ((b, c) ∉ two_part_tlds) →
                base_domain (join "." ls) = Ret (join "." [b; c])).
Proof.
  intros Hne Hls. destruct (labels_normal ls Hne Hls) as [Hn Hs].
  pose proof (base_domain_cases (join "." ls)) as Hc. cbv zeta in Hc.
  rewrite Hn, Hs in Hc.
  split; [|split].
  - intros Hlen. destruct Hc as [[_ E]|(Hlen' & _)]; [done|lia].
  - intros pre a b c -> Htld.
    destruct Hc as [[Hlen _]|(_ & p2 & p1 & Hp2 & Hp1 & Hcase)].
    { rewrite length_app in Hlen. simpl in Hlen. lia. }
    rewrite length_app in Hp2, Hp1, Hcase. cbn [length] in Hp2, Hp1, Hcase.
    rewrite lookup_app_r in Hp2, Hp1 by lia.
    replace (length pre + 3 - 2 - length pre)%nat with 1%nat in Hp2 by lia.
    replace (length pre + 3 - 1 - length pre)%nat with 2%nat in Hp1 by lia.
    injection Hp2 as <-. injection Hp1 as <-.
    destruct Hcase as [[_ E]|[? _]]; [|done]. rewrite E.
    replace (length pre + 3 - 3)%nat with (length pre) by lia.
    by rewrite drop_app_length.
  - intros pre a b c -> Htld.
    destruct Hc as [[Hlen _]|(_ & p2 & p1 & Hp2 & Hp1 & Hcase)].
    { rewrite length_app in Hlen. simpl in Hlen. lia. }
    rewrite length_app in Hp2, Hp1, Hcase. cbn [length] in Hp2, Hp1, Hcase.
    rewrite lookup_app_r in Hp2, Hp1 by lia.
    replace (length pre + 3 - 2 - length pre)%nat with 1%nat in Hp2 by lia.
    replace (length pre + 3 - 1 - length pre)%nat with 2%nat in Hp1 by lia.
    injection Hp2 as <-. injection Hp1 as <-.
    destruct Hcase as [[? _]|[_ E]]; [done|]. rewrite E.
    replace (length pre + 3 - 2)%nat with (length pre + 1)%nat by lia.
    rewrite drop_app_ge by lia.
    by replace (length pre + 1 - length pre)%nat with 1%nat by lia.
Qed.

(** X5: one more label in front of a host of three labels or more does not
    change the root domain. *)
Theorem base_domain_subdomain (l : str) (ls : list str) :
  (3 ≤ length ls)%nat →
  Forall (λ p, p ≠ [] ∧ ("."%char ∉ p) ∧ lower p = p) (l :: ls) →
  base_domain (l ++ "."%char :: join "." ls) = base_domain (join "." ls).
Proof.
  intros Hlen Hls. rewrite <- join_cons by (intros ->; simpl in Hlen; lia).
  pose proof Hls as Hls'. apply Forall_cons in Hls' as [_ Hls'].
  assert (ls ≠ []) as Hne by (intros ->; simpl in Hlen; lia).
  destruct (labels_normal (l :: ls) ltac:(done) Hls) as [Hn1 Hs1].
  destruct (labels_normal ls Hne Hls') as [Hn2 Hs2].
  pose proof (base_domain_cases (join "." (l :: ls))) as H1.
  pose proof (base_domain_cases (join "." ls)) as H2.
  cbv zeta in H1, H2. rewrite Hn1, Hs1 in H1. rewrite Hn2, Hs2 in H2.
  destruct H1 as [[Hl1 _]|(_ & p2 & p1 & Hp2 & Hp1 & Hc1)]; [simpl in Hl1; lia|].
  destruct H2 as [[Hl2 _]|(_ & q2 & q1 & Hq2 & Hq1 & Hc2)]; [lia|].
  cbn [length] in Hp2, Hp1, Hc1.
  replace (S (length ls) - 2)%nat with (S (length ls - 2)) in Hp2, Hc1 by lia.
  replace (S (length ls) - 1)%nat with (S (length ls - 1)) in Hp1 by lia.
  replace (S (length ls) - 3)%nat with (S (length ls - 3)) in Hc1 by lia.
  cbn [lookup list_lookup drop] in Hp2, Hp1, Hc1.
  assert (Some q2 = Some p2) as [= ->] by (rewrite <- Hq2; exact Hp2).
  assert (Some q1 = Some p1) as [= ->] by (rewrite <- Hq1; exact Hp1).
  destruct Hc1 as [[? ->]|[? ->]], Hc2 as [[? ->]|[? ->]]; done.
Qed.

(** ** Labels *)

(** X6: a higher score never gets a worse label, and there are three
    labels. *)
Theorem label_from_score_monotone (s1 s2 : Z) :
  (s1 ≤ s2)%Z →
  (label_rank (label_from_score s1) ≤ label_rank (label_from_score s2))%nat ∧
  label_from_score s1 ∈ [py "LOW_QUALITY"; py "SUSPICIOUS"; py "GOOD_SAFE"].
Proof.
  intros H. unfold label_from_score.
  destruct (Z.ltb_spec s1 50), (Z.ltb_spec s1 60), (Z.gtb_spec s1 70),
    (Z.ltb_spec s2 50), (Z.ltb_spec s2 60), (Z.gtb_spec s2 70);
    try lia; (split; [vm_compute; lia|set_solver]).
Qed.

(** ** The words of a page *)

Lemma isspace_lower_char c : isspace (lower_char c) = isspace c.
Proof. by destruct c as [[] [] [] [] [] [] [] []]. Qed.

Lemma split_ws_cleaned (s cur cur' : str) (b : bool) :
  truthy cur' = truthy cur → (b = true → truthy cur = false) →
  length (split_ws_from cur' (lower (sub_ws_from b s)))
  = length (split_ws_from cur s).
Proof.
  revert cur cur' b. induction s as [|c s IH]; intros cur cur' b Ht Hb.
  - cbn. rewrite Ht. by destruct (truthy cur).
  - cbn [sub_ws_from split_ws_from]. destruct (isspace c) eqn:Hc.
    + destruct b.
      * rewrite (Hb eq_refl). cbn [app]. apply IH; [by rewrite Ht, Hb|done].
      * cbn [lower map split_ws_from].
        change (isspace (lower_char " ")) with true. cbn iota.
        rewrite !length_app, Ht. f_equal; [by destruct (truthy cur)|by apply IH].
    + cbn [lower map split_ws_from]. rewrite isspace_lower_char, Hc.
      apply IH; [by destruct cur, cur'|done].
Qed.

Section Words.

Variable soup_get_text : str → res str.

(** X7: cleaning the visible text (collapsing whitespace, lowercasing) does
    not change its number of words: [word_count] counts the words of the
    visible text as extracted, and [thin_content] tells whether they are
    fewer than 200. *)
Theorem word_count_of_visible_text (html visible : str) :
  soup_get_text html = Ret visible →
  let wc := Z.of_nat (length (split_ws visible)) in
  ∃ rr, quick_risk_from_html soup_get_text html = Ret rr ∧
        signals rr !! "word_count" = Some (VInt wc) ∧
        signals rr !! "thin_content" = Some (VBool (wc <? 200)%Z).
Proof.
  intros Hv wc.
  pose proof (quick_risk_from_html_unfold soup_get_text html visible Hv) as E.
  cbv zeta in E. eexists. split; [exact E|].
  cbn [signals]. unfold cleaned_text, sub_ws, split_ws.
  rewrite (split_ws_cleaned visible [] [] false) by done.
  done.
Qed.

Lemma sub_ws_blank_run s : forallb isspace s = true → sub_ws_from true s = [].
Proof.
  induction s as [|c s IH]; intros H; [done|].
  cbn in H. apply andb_prop in H as [Hc Hs]. cbn [sub_ws_from]. rewrite Hc. auto.
Qed.

Lemma sub_ws_blank s :
  forallb isspace s = true → sub_ws s = [] ∨ sub_ws s = [" "%char].
Proof.
  destruct s as [|c s]; intros H; [by left|].
  cbn in H. apply andb_prop in H as [Hc Hs]. unfold sub_ws. cbn [sub_ws_from].
  rewrite Hc, (sub_ws_blank_run s Hs). by right.
Qed.

(** X8: a page whose visible text is empty or whitespace only has zero
    words: it is thin content, holds no placeholder text, and has risk
    20. *)
Theorem blank_page_risk (html visible : str) :
  soup_get_text html = Ret visible → forallb isspace visible = true →
  ∃ rr, quick_risk_from_html soup_get_text html = Ret rr ∧
        risk rr = 20%Z ∧
        signals rr !! "word_count" = Some (VInt 0) ∧
        signals rr !! "thin_content" = Some (VBool true) ∧
        signals rr !! "lorem_ipsum" = Some (VBool false).
Proof.
  intros Hv Hb.
  pose proof (quick_risk_from_html_unfold soup_get_text html visible Hv) as E.
  cbv zeta in E. eexists. split; [exact E|].
  cbn [risk signals]. unfold cleaned_text.
  destruct (sub_ws_blank _ Hb) as [->| ->]; by vm_compute.
Qed.

End Words.

(** ** The requests of a fetch *)

Section Fetch.

Variable urlparse : str → res parse_result.
Variable requests_get : list str → str → res response.

#[local] Abbreviation extract_host := (extract_host urlparse).
#[local] Abbreviation fetch_loop := (fetch_loop requests_get).
#[local] Abbreviation fetch_final := (fetch_final urlparse requests_get).

(** The loop passes over candidates that are not accepted, keeping the
    error of the last one. *)
Lemma fetch_loop_skip pre rest last_err log :
  (∀ i v, pre !! i = Some v → accepted (requests_get (log ++ take i pre) v) = false) →
  fetch_loop (pre ++ rest) last_err log =
  fetch_loop rest
    (match last pre with
     | Some v => Some (attempt_error (requests_get (log ++ removelast pre) v))
     | None => last_err
     end)
    (log ++ pre).
Proof.
  revert last_err log. induction pre as [|u pre IH]; intros last_err log H.
  - cbn [app last]. by rewrite (app_nil_r log).
  - cbn [app]. rewrite fetch_loop_cons.
    pose proof (H 0%nat u eq_refl) as Hu. cbn [take] in Hu. rewrite app_nil_r in Hu.
    assert (fetch_loop (pre ++ rest) (Some (attempt_error (requests_get log u))) (log ++ [u])
            = fetch_loop rest
                (match last (u :: pre) with
                 | Some v =>
                     Some (attempt_error (requests_get (log ++ removelast (u :: pre)) v))
                 | None => last_err
                 end)
                (log ++ u :: pre)) as Hstep.
    { rewrite IH.
      2:{ intros i v Hv. rewrite <- app_assoc. exact (H (S i) v Hv). }
      rewrite <- !app_assoc. cbn [app]. f_equal.
      destruct pre as [|v pre]; [by rewrite app_nil_r|].
      rewrite last_cons_cons. destruct (last (v :: pre)) eqn:El; [done|].
      by apply last_None in El. }
    unfold accepted in Hu. unfold attempt_error in Hstep.
    destruct (requests_get log u) as [r|e]; [|exact Hstep].
    rewrite Hu. exact Hstep.
Qed.

(** X9: the first candidate that answers with a status below 400 and a body
    that is not empty is the result of the fetch, and no later candidate is
    requested. *)
Theorem fetch_final_first_accepted (input host : str) (pre : list str) (u : str)
    (post : list str) (r : response) :
  extract_host input = Ret host → truthy host = true →
  candidates input host = pre ++ u :: post →
  (∀ i v, pre !! i = Some v → accepted (requests_get (take i pre) v) = false) →
  requests_get pre u = Ret r → accepted (Ret r) = true →
  run (fetch_final input) = (Ret (Some (url r), Some (text r), None), pre ++ [u]).
Proof.
  intros Hh Hty Hc Hpre Hu Hacc. unfold run.
  rewrite (fetch_final_unfold urlparse requests_get input host) by done.
  rewrite Hty. cbn [negb]. rewrite Hc, fetch_loop_skip by done.
  rewrite fetch_loop_cons. cbn [app]. rewrite Hu. cbn [accepted] in Hacc.
  by rewrite Hacc.
Qed.

(** X10: when no candidate is accepted (an exception, a status of 400 or
    more, or an empty body), every candidate has been requested, in order,
    and the error names the outcome of the last one; an empty body with
    status 200 is reported as "HTTP 200". *)
Theorem fetch_final_none_accepted (input host : str) :
  extract_host input = Ret host → truthy host = true →
  (∀ i v, candidates input host !! i = Some v →
          accepted (requests_get (take i (candidates input host)) v) = false) →
  run (fetch_final input)
  = (Ret (None, None,
          Some (py "Cannot access website ("
                ++ attempt_error (requests_get (removelast (candidates input host))
                                    (py "http://" ++ host ++ py "/"))
                ++ py ")")),
     candidates input host).
Proof.
  intros Hh Hty Hall. unfold run.
  rewrite (fetch_final_unfold urlparse requests_get input host) by done.
  rewrite Hty. cbn [negb].
  rewrite <- (app_nil_r (candidates input host)) at 1.
  rewrite fetch_loop_skip by done.
  assert (last (candidates input host) = Some (py "http://" ++ host ++ py "/")) as ->.
  { unfold candidates. by destruct (contains _ input). }
  reflexivity.
Qed.

(** The requests of the loop are the candidates up to some point, and at
    least one when there is a candidate. *)
Lemma fetch_loop_log cands last_err log0 :
  ∃ k, (fetch_loop cands last_err log0).2 = log0 ++ take k cands ∧
       (cands ≠ [] → (1 ≤ k)%nat).
Proof.
  revert last_err log0. induction cands as [|u rest IH]; intros last_err log0.
  - exists 0%nat. by rewrite app_nil_r.
  - rewrite fetch_loop_cons.
    assert (∀ e, ∃ k, (fetch_loop rest e (log0 ++ [u])).2 = log0 ++ take k (u :: rest)
                      ∧ (u :: rest ≠ [] → (1 ≤ k)%nat)) as Hstep.
    { intros e. destruct (IH e (log0 ++ [u])) as (k & Hk & _). exists (S k).
      rewrite Hk, <- app_assoc. split; [done|lia]. }
    destruct (requests_get log0 u) as [r|e]; [|apply Hstep].
    destruct (_ && _); [|apply Hstep].
    exists 1%nat. cbn [take snd]. split; [done|lia].
Qed.

End Fetch.

(** ** The results of an analysis *)

Section Results.

Variable urlparse : str → res parse_result.
Variable requests_get : list str → str → res response.
Variable soup_get_text : str → res str.

#[local] Abbreviation extract_host := (extract_host urlparse).
#[local] Abbreviation is_trusted := (is_trusted urlparse).
#[local] Abbreviation fetch_final := (fetch_final urlparse requests_get).
#[local] Abbreviation quick_risk_from_html := (quick_risk_from_html soup_get_text).
#[local] Abbreviation analyze_target := (analyze_target urlparse requests_get soup_get_text).

Lemma quick_risk_cases html :
  (∃ visible rr, soup_get_text html = Ret visible ∧ quick_risk_from_html html = Ret rr ∧
                 risk rr ∈ [0; 20; 30; 50]%Z) ∨
  (∃ e, soup_get_text html = Raise e ∧ quick_risk_from_html html = Raise e).
Proof.
  destruct (soup_get_text html) as [visible|e] eqn:Hv.
  - left. pose proof (quick_risk_from_html_unfold soup_get_text html visible Hv) as E.
    cbv zeta in E. eexists _, _. split; [done|]. split; [exact E|].
    cbn [risk]. destruct (_ <? _)%Z, (_ || _); set_solver.
  - right. exists e. split; [done|]. by apply quick_risk_propagates.
Qed.

(** A run of [analyze_target] from any log: it returns a well-formed
    result, or raises what the text extraction raises on the fetched page;
    the log grows by the requests of the fetch, if there is one. *)
Lemma analyze_target_from input log0 :
  ∃ host out log,
    extract_host input = Ret host ∧
    analyze_target input log0 = (out, log) ∧
    match out with
    | Ret d => well_formed_result input d
    | Raise e => scoring_raises urlparse requests_get soup_get_text input log0 e log
    end ∧
    ((is_trusted host = Ret true ∧ log = log0) ∨
     (is_trusted host = Ret false ∧ log = (fetch_final input log0).2)).
Proof.
  destruct (extract_host_total urlparse input) as [host Hh].
  destruct (base_domain_total host) as [b Hb].
  exists host. unfold analyze_target.
  rewrite (bind_lift_ret _ host) by done.
  rewrite (bind_lift_ret _ b) by done.
  destruct (is_trusted_total urlparse host) as [[] Ht];
    rewrite (bind_lift_ret _ _ _ _ Ht).
  { eexists _, _. split; [done|]. split; [reflexivity|]. split; [|by left].
    split; [done|]. split; [by eexists _, _|]. right.
    split; [done|]. split; [done|]. exists 90%Z, true, (py "https://" ++ host ++ py "/"), b.
    repeat split; done. }
  destruct (fetch_final_shape urlparse requests_get input log0)
    as [log [(msg & Hf & Hm)|(u & t & Hf & _)]];
    rewrite (bind_ret _ _ _ _ _ Hf); cbn [truthy_opt or_empty]; rewrite ?Hm.
  { eexists _, _. split; [done|]. split; [reflexivity|].
    split; [|right; by rewrite Hf].
    split; [done|]. split; [by eexists _, _|]. left.
    split; [done|]. split; [by exists msg|]. done. }
  destruct (extract_host_total urlparse u) as [fh Hfh].
  destruct (base_domain_total fh) as [fb Hfb].
  rewrite (bind_lift_ret _ fh) by done.
  rewrite (bind_lift_ret _ fb) by done.
  destruct (is_trusted_total urlparse fh) as [[] Hft];
    rewrite (bind_lift_ret _ _ _ _ Hft).
  { eexists _, _. split; [done|]. split; [reflexivity|].
    split; [|right; by rewrite Hf].
    split; [done|]. split; [by eexists _, _|]. right.
    split; [done|]. split; [done|]. exists 90%Z, true, u, fb. repeat split; done. }
  rewrite (bind_lift_ret _ t) by done.
  destruct (quick_risk_cases t) as [(visible & rr & _ & Hq & Hrisk)|(e & Hv & Hq)].
  2:{ rewrite (bind_lift_raise _ e) by done.
      eexists _, _. split; [done|]. split; [reflexivity|].
      split; [|right; by rewrite Hf]. by exists host, u, t, fh. }
  rewrite (bind_lift_ret _ rr) by done.
  destruct (negb (startswith (py "https://") (lower u))).
  - eexists _, _. split; [done|]. split; [reflexivity|].
    split; [|right; by rewrite Hf].
    split; [done|]. split; [by eexists _, _|]. right.
    split; [done|]. split; [done|].
    eexists _, false, u, fb. split; [reflexivity|].
    split; [set_unfold in Hrisk; lia|]. repeat split; done.
  - eexists _, _. split; [done|]. split; [reflexivity|].
    split; [|right; by rewrite Hf].
    split; [done|]. split; [by eexists _, _|]. right.
    split; [done|]. split; [done|].
    eexists _, false, u, fb. split; [reflexivity|].
    split; [set_unfold in Hrisk; lia|]. repeat split; done.
Qed.


(** X11: the two outcomes of [analyze_target]. It returns a result of one
    of two kinds, or it raises, in one way only: on the content-scoring
    path, when the text extraction raises on the fetched page, under no
    [try]. The results hold the input as given, the host and the root
    domain. An ERROR result holds a message that is not empty and no score,
    label, final URL or forced-good flag; an OK result holds no error.
    Where the text extraction raises on no page, [analyze_target]
    returns. *)
Theorem analyze_target_outcome (input : str) :
  ∃ out log,
    run (analyze_target input) = (out, log) ∧
    match out with
    | Ret d =>
        d !! "input" = Some (VStr input) ∧
        (∃ host b, extract_host input = Ret host ∧ base_domain host = Ret b ∧
                   d !! "host" = Some (VStr host) ∧ d !! "base_domain" = Some (VStr b)) ∧
        ((d !! "status" = Some (VStr (py "ERROR")) ∧
          (∃ msg, d !! "error" = Some (VStr msg) ∧ truthy msg = true) ∧
          d !! "score" = None ∧ d !! "label" = None ∧
          d !! "final_url" = None ∧ d !! "forced_good" = None) ∨
         (d !! "status" = Some (VStr (py "OK")) ∧ d !! "error" = None))
    | Raise e => scoring_raises urlparse requests_get soup_get_text input [] e log
    end ∧
    ((∀ html e, soup_get_text html ≠ Raise e) → ∃ d, out = Ret d).
Proof.
  destruct (analyze_target_cases urlparse requests_get input)
    as (host & b & Hh & Hb & [Ht|(Ht & log' & [(msg & Hf & Hm)|
         (fu & html & fh & fb & Hf & Hfh & Hfb & [Hft|Hft])])]).
  - eexists _, _. split; [by apply (analyze_allowlist _ _ _ input host b)|].
    split; [|by eexists].
    split; [done|]. split; [by exists host, b|]. by right.
  - eexists _, _. split; [by apply (analyze_error _ _ _ input host b msg log')|].
    split; [|by eexists].
    split; [done|]. split; [by exists host, b|]. left.
    split; [done|]. split; [by exists msg|]. done.
  - eexists _, _. split; [by eapply analyze_redirect|].
    split; [|by eexists].
    split; [done|]. split; [by exists host, b|]. by right.
  - destruct (quick_risk_cases html) as [(visible & rr & _ & Hq & _)|(e & Hv & Hq)].
    + eexists _, _. split; [by eapply analyze_scored|].
      split; [|by eexists].
      split; [done|]. split; [by exists host, b|]. by right.
    + eexists _, _. split; [by eapply analyze_scoring_raises|].
      split; [by exists host, fu, html, fh|].
      intros Hnever. by destruct (Hnever html e).
Qed.

(** X12: an OK result has a score between 25 and 100, so that the floor at 0
    never applies; its label is the label of its score, and a forced-good
    result has score 90. *)
Theorem ok_result_score (input : str) (d : gmap string pyval) (log : list str) :
  run (analyze_target input) = (Ret d, log) →
  d !! "status" = Some (VStr (py "OK")) →
  ∃ score forced,
    d !! "score" = Some (VInt score) ∧ (25 ≤ score ≤ 100)%Z ∧
    d !! "label" = Some (VStr (label_from_score score)) ∧
    d !! "forced_good" = Some (VBool forced) ∧
    (forced = true → score = 90%Z).
Proof.
  intros Hrun Hok.
  destruct (analyze_target_from input []) as (host & out & log' & _ & Hrun' & Hwf & _).
  unfold run in Hrun. rewrite Hrun' in Hrun. injection Hrun as -> ->.
  destruct Hwf as (_ & _ & [(Herr & _)|(_ & _ & score & forced & fu & fb & H)]).
  - rewrite Hok in Herr. discriminate Herr.
  - exists score, forced. tauto.
Qed.

(** X13: the requests of one analysis are the first candidates, in order: at
    most three, at most two when the input holds no ["://"], and none when
    the input host is trusted or empty. *)
Theorem analyze_target_requests (input : str) :
  ∃ host out log,
    extract_host input = Ret host ∧
    run (analyze_target input) = (out, log) ∧
    log `prefix_of` candidates input host ∧
    (length log ≤ 3)%nat ∧
    (contains (py "://") input = false → (length log ≤ 2)%nat) ∧
    (is_trusted host = Ret true ∨ truthy host = false → log = []) ∧
    (is_trusted host = Ret false → truthy host = true → log ≠ []).
Proof.
  destruct (analyze_target_from input []) as (host & out & log & Hh & Hrun & _ & Hlog).
  exists host, out, log. split; [done|]. split; [exact Hrun|].
  rewrite (fetch_final_unfold urlparse requests_get input host) in Hlog by done.
  assert (∃ k, log = take k (candidates input host) ∧
               (is_trusted host = Ret true ∨ truthy host = false → log = []) ∧
               (is_trusted host = Ret false → truthy host = true → log ≠ []))
    as (k & -> & Hnone & Hsome).
  { destruct Hlog as [[Ht ->]|[Ht ->]].
    - exists 0%nat. split; [done|]. split; [done|]. intros; congruence.
    - destruct (truthy host) eqn:Hty; cbn [negb snd].
      + destruct (fetch_loop_log requests_get (candidates input host) None [])
          as (k & Hk & Hk1).
        cbn [app] in Hk. exists k. rewrite Hk. split; [done|]. split.
        * intros [?|?]; congruence.
        * intros _ _ E. apply (f_equal length) in E.
          rewrite length_take in E. unfold candidates in E, Hk1.
          rewrite length_app in E. cbn [length] in E.
          assert (1 ≤ k)%nat by (apply Hk1; by destruct (contains _ input)). lia.
      + exists 0%nat. split; [done|]. split; [done|]. intros; congruence. }
  split; [apply prefix_take|]. split; [|split; [|by split]].
  - rewrite length_take. unfold candidates.
    destruct (contains _ input); cbn [length app]; lia.
  - intros Hc. rewrite length_take. unfold candidates. rewrite Hc. cbn [length app]. lia.
Qed.

(** X14: on the content-scoring path, when the text extraction returns,
    the label follows from the signals: GOOD_SAFE exactly when there is no
    placeholder text and not both thin content and no https; LOW_QUALITY
    exactly when there is placeholder text and no https. *)
Theorem label_from_signals
    (input host final_url html final_host visible : str) (log : list str) :
  extract_host input = Ret host → is_trusted host = Ret false →
  fetch_final input [] = (Ret (Some final_url, Some html, None), log) →
  extract_host final_url = Ret final_host → is_trusted final_host = Ret false →
  soup_get_text html = Ret visible →
  let text := cleaned_text visible in
  let thin := (Z.of_nat (length (split_ws text)) <? 200)%Z in
  let lorem := contains (py "lorem ipsum") text || contains (py "dolor sit amet") text in
  let no_https := negb (startswith (py "https://") (lower final_url)) in
  ∃ d label,
    run (analyze_target input) = (Ret d, log) ∧
    d !! "label" = Some (VStr label) ∧
    (label = py "GOOD_SAFE" ↔ lorem = false ∧ thin && no_https = false) ∧
    (label = py "LOW_QUALITY" ↔ lorem = true ∧ no_https = true) ∧
    (label = py "SUSPICIOUS" ↔
     lorem && negb no_https || negb lorem && thin && no_https = true).
Proof.
  intros Hh Ht Hf Hfh Hft Hv text thin lorem no_https.
  destruct (base_domain_total host) as [b Hb].
  destruct (base_domain_total final_host) as [fb Hfb].
  pose proof (quick_risk_from_html_unfold soup_get_text html visible Hv) as E.
  cbv zeta in E. fold text in E. fold thin in E. fold lorem in E.
  eexists _, _. split; [by eapply analyze_scored|]. split; [reflexivity|].
  fold no_https. cbn [risk].
  destruct thin, lorem, no_https; vm_compute;
    repeat split; intros;
    repeat match goal with H : _ ∧ _ |- _ => destruct H end;
    repeat split; congruence.
Qed.

(** X21: the redirect fast path in the words of the allowlist. When the
    final host is one that [extract_host] leaves unchanged (a bare
    lowercase host name), the trust check is the membership of the final
    host or of its root domain in the allowlist, and a member gives the
    forced-good result. *)
Theorem trusted_final_host_fast_path
    (input host final_url html final_host final_base : str) (log : list str) :
  extract_host input = Ret host → is_trusted host = Ret false →
  fetch_final input [] = (Ret (Some final_url, Some html, None), log) →
  extract_host final_url = Ret final_host → base_domain final_host = Ret final_base →
  extract_host final_host = Ret final_host →
  final_host ∈ TRUSTED ∨ final_base ∈ TRUSTED →
  ∃ d, run (analyze_target input) = (Ret d, log) ∧
       d !! "status" = Some (VStr (py "OK")) ∧
       d !! "label" = Some (VStr (py "GOOD_SAFE")) ∧
       d !! "score" = Some (VInt 90) ∧
       d !! "forced_good" = Some (VBool true) ∧
       d !! "reason" = Some (VStr (py "Final redirected domain is trusted")) ∧
       d !! "signals" = None.
Proof.
  intros Hh Ht Hf Hfh Hfb Hfix Hin.
  destruct (base_domain_total host) as [b Hb].
  assert (is_trusted final_host = Ret true) as Hft.
  { rewrite (is_trusted_fixed_host urlparse final_host final_base) by done.
    f_equal. apply orb_true_iff.
    destruct Hin; [left|right]; by apply bool_decide_eq_true. }
  eexists. split; [by eapply analyze_redirect|]. done.
Qed.

End Results.

(** ** The bulk scan *)

Lemma label_from_score_cases score :
  label_from_score score = py "GOOD_SAFE" ∨
  label_from_score score = py "SUSPICIOUS" ∨
  label_from_score score = py "LOW_QUALITY".
Proof.
  unfold label_from_score. destruct (_ <? _)%Z; [auto|].
  destruct (_ <? _)%Z; [auto|]. destruct (_ >? _)%Z; auto.
Qed.

(** The row of a well-formed result. *)
Lemma summary_row_of_result input d :
  well_formed_result input d →
  let row := summary_row d in
  dom row = row_keys ∧
  row !! "input" = Some (VStr input) ∧
  ∃ label score note,
    row !! "label" = Some (VStr label) ∧ label ∈ row_labels ∧
    row !! "score" = Some (VInt score) ∧
    row !! "note" = Some (VStr note) ∧
    (label = py "ERROR" →
     score = 0%Z ∧ row !! "final_url" = Some (VStr []) ∧ truthy note = true) ∧
    (label ≠ py "ERROR" →
     (25 ≤ score ≤ 100)%Z ∧ label = label_from_score score ∧
     (note = py "trusted" ∨ note = []) ∧ (note = py "trusted" → score = 90%Z)).
Proof.
  intros (Hin & (host & b & Hhost & Hb) &
          [(Hst & (msg & Hmsg & Hty) & _)|
           (Hst & _ & score & forced & fu & fb & Hsc & Hrange & Hl & Hfg & H90 & Hfu & Hfb)]) row;
    subst row; unfold summary_row, dict_get; rewrite Hst; cbn [from_option id eq_str].
  - rewrite bool_decide_true by done. rewrite Hin, Hb, Hmsg. cbn [from_option id].
    split; [unfold dict; rewrite dom_list_to_map_L; cbn; unfold row_keys; set_solver|].
    split; [done|]. exists (py "ERROR"), 0%Z, msg.
    split; [done|]. split; [apply list_elem_of_here|].
    split; [done|]. split; [done|]. split; [done|]. by intros [].
  - rewrite bool_decide_false by (by vm_compute).
    rewrite Hin, Hl, Hsc, Hfu, Hfb, Hfg. cbn [from_option id pyval_truthy].
    split; [unfold dict; rewrite dom_list_to_map_L; cbn; unfold row_keys; set_solver|].
    split; [done|].
    exists (label_from_score score), score, (if forced then py "trusted" else []).
    split; [done|]. split.
    { unfold row_labels.
      destruct (label_from_score_cases score) as [->|[->| ->]];
        repeat first [apply list_elem_of_here | apply list_elem_of_further]. }
    split; [done|]. split; [done|]. split.
    { intros E. destruct (label_from_score_cases score) as [H|[H|H]];
        rewrite H in E; discriminate E. }
    intros _. split; [done|]. split; [done|]. split; [destruct forced; auto|].
    destruct forced; [auto|discriminate].
Qed.

(** *** Lines *)

Lemma splitlines_from_line cur p rest :
  forallb (λ c, negb (is_linebreak c)) p = true →
  splitlines_from cur (p ++ rest) = splitlines_from (cur ++ p) rest.
Proof.
  revert cur. induction p as [|c p IH]; intros cur H; [by rewrite app_nil_r|].
  cbn in H. apply andb_prop in H as [Hc Hp]. cbn [app splitlines_from].
  destruct (is_linebreak c); [done|]. rewrite IH by done. by rewrite <- app_assoc.
Qed.

Lemma splitlines_from_newline cur rest :
  splitlines_from cur ("010"%char :: rest) = cur :: splitlines_from [] rest.
Proof. by destruct rest. Qed.

Lemma bulk_items_lines cur (ls : list str) :
  ls ≠ [] →
  Forall (λ p, forallb (λ c, negb (is_linebreak c)) p = true) ls →
  map strip (filter (λ x, truthy (strip x) = true) (splitlines_from cur (join "010" ls)))
  = map strip (filter (λ x, truthy (strip x) = true)
                 ((cur ++ default [] (head ls)) :: tail ls)).
Proof.
  revert cur. induction ls as [|p ls IH]; intros cur Hne Hls; [done|].
  apply Forall_cons in Hls as [Hp Hls]. destruct ls as [|q ls].
  - cbn [join head tail from_option id]. rewrite <- (app_nil_r p) at 1.
    rewrite splitlines_from_line by done. cbn [splitlines_from].
    destruct (cur ++ p) as [|a s] eqn:E; [|done].
    cbn [truthy]. rewrite !filter_nil. rewrite filter_cons_False; [done|].
    by vm_compute.
  - rewrite join_cons by done. rewrite splitlines_from_line by done.
    rewrite splitlines_from_newline. cbn [head tail from_option id].
    rewrite !(filter_cons _ (cur ++ p)).
    destruct (decide _); cbn [map]; rewrite IH by done; cbn [app head from_option id]; done.
Qed.

(** X15: for a text area that holds lines separated by newlines, the items
    of the bulk scan are the lines that are not blank, trimmed, in order:
    blank lines are dropped. *)
Theorem bulk_items_of_lines (ls : list str) :
  Forall (λ p, forallb (λ c, negb (is_linebreak c)) p = true) ls →
  bulk_items (join "010" ls)
  = map strip (filter (λ x, truthy (strip x) = true) ls).
Proof.
  intros Hls. unfold bulk_items, splitlines. destruct ls as [|p ls]; [done|].
  by rewrite bulk_items_lines.
Qed.

Lemma bulk_items_stripped bulk :
  Forall (λ x, truthy x = true) (bulk_items bulk).
Proof.
  unfold bulk_items. apply Forall_forall. intros x Hx.
  apply list_elem_of_fmap in Hx as (y & -> & Hy). by apply list_elem_of_filter in Hy as [? _].
Qed.

Section BulkFacts.

Variable urlparse : str → res parse_result.
Variable requests_get : list str → str → res response.
Variable soup_get_text : str → res str.

#[local] Abbreviation analyze_target := (analyze_target urlparse requests_get soup_get_text).
#[local] Abbreviation analyze_each := (analyze_each urlparse requests_get soup_get_text).
#[local] Abbreviation bulk_analyze := (bulk_analyze urlparse requests_get soup_get_text).

Lemma fetch_final_log_bound input log0 :
  (length (fetch_final urlparse requests_get input log0).2 ≤ length log0 + 3)%nat.
Proof.
  destruct (extract_host_total urlparse input) as [host Hh].
  rewrite (fetch_final_unfold urlparse requests_get input host) by done.
  destruct (truthy host); cbn [negb snd]; [|lia].
  destruct (fetch_loop_log requests_get (candidates input host) None log0) as (k & -> & _).
  rewrite length_app, length_take. unfold candidates.
  destruct (contains _ input); cbn [length app]; lia.
Qed.

(** The list comprehension over the items. It gives a well-formed result
    for each item, in order, unless the analysis of one item raises: the
    items before it have been analyzed, and what it raises ends the
    comprehension. At most three requests are sent for each item. *)
Lemma analyze_each_from items log0 :
  ∃ out log,
    analyze_each items log0 = (out, log) ∧
    match out with
    | Ret results => Forall2 well_formed_result items results
    | Raise e =>
        ∃ before x after log1,
          items = before ++ x :: after ∧
          (∃ rs, analyze_each before log0 = (Ret rs, log1)) ∧
          scoring_raises urlparse requests_get soup_get_text x log1 e log
    end ∧
    (length log ≤ length log0 + 3 * length items)%nat.
Proof.
  revert log0. induction items as [|x items IH]; intros log0.
  - exists (Ret []), log0. split; [done|]. split; [constructor|simpl; lia].
  - destruct (analyze_target_from urlparse requests_get soup_get_text x log0)
      as (host & o & log1 & _ & Hrun & Hwf & Hlog).
    assert (length log1 ≤ length log0 + 3)%nat.
    { destruct Hlog as [[_ ->]|[_ ->]]; [lia|apply fetch_final_log_bound]. }
    destruct o as [d|e].
    + destruct (IH log1) as ([rs|e] & log & Hrs & Hall & Hlen).
      * exists (Ret (d :: rs)), log. split.
        { cbn [analyze_each]. rewrite (bind_ret _ _ _ _ _ Hrun).
          by rewrite (bind_ret _ _ _ _ _ Hrs). }
        split; [by constructor|]. cbn [length]. lia.
      * exists (Raise e), log. split.
        { cbn [analyze_each]. rewrite (bind_ret _ _ _ _ _ Hrun).
          by rewrite (bind_raise _ _ _ _ _ Hrs). }
        split; [|cbn [length]; lia].
        destruct Hall as (before & y & after & log2 & -> & (rs & Hbefore) & Hsr).
        exists (x :: before), y, after, log2. split; [done|]. split; [|done].
        exists (d :: rs). cbn [analyze_each]. rewrite (bind_ret _ _ _ _ _ Hrun).
        by rewrite (bind_ret _ _ _ _ _ Hbefore).
    + exists (Raise e), log1. split.
      { cbn [analyze_each]. by rewrite (bind_raise _ _ _ _ _ Hrun). }
      split; [|cbn [length]; lia].
      exists [], x, items, log0. split; [done|]. split; [by exists []|done].
Qed.

(** X16: the outcomes of the bulk scan. Without items it shows the warning
    and sends no request. Otherwise it gives one result and one row for
    each of the first 200 items, unless the text extraction raises on the
    page fetched for one of them: the comprehension at line 243 stands
    under no [try], so that the exception ends the scan and no table is
    built, although the items before have been analyzed. In every case at
    most three requests are sent for each of the first 200 items; and where
    the text extraction raises on no page, the scan returns. *)
Theorem bulk_analyze_rows (bulk : str) :
  ∃ out log,
    run (bulk_analyze bulk) = (out, log) ∧
    match out with
    | Ret None => bulk_items bulk = [] ∧ log = []
    | Ret (Some (results, rows)) =>
        bulk_items bulk ≠ [] ∧
        length rows = (length (bulk_items bulk) `min` 200)%nat ∧
        length results = length rows ∧
        (length rows ≤ 200)%nat ∧
        (length log ≤ 3 * length rows)%nat
    | Raise e =>
        ∃ before x after log1,
          take 200 (bulk_items bulk) = before ++ x :: after ∧
          (∃ rs, analyze_each before [] = (Ret rs, log1)) ∧
          scoring_raises urlparse requests_get soup_get_text x log1 e log
    end ∧
    (length log ≤ 3 * (length (bulk_items bulk) `min` 200))%nat ∧
    ((∀ html e, soup_get_text html ≠ Raise e) → ∃ o, out = Ret o).
Proof.
  unfold run, bulk_analyze.
  destruct (bulk_items bulk) as [|x items] eqn:E.
  { exists (Ret None), []. split; [done|]. split; [done|]. split; [simpl; lia|by eexists]. }
  destruct (analyze_each_from (take 200 (x :: items)) [])
    as ([rs|e] & log & Hrs & Hall & Hlen);
    rewrite length_take in Hlen; cbn [length] in Hlen.
  - exists (Ret (Some (rs, map summary_row rs))), log. split.
    { by rewrite (bind_ret _ _ _ _ _ Hrs). }
    apply Forall2_length in Hall. rewrite length_take in Hall.
    rewrite length_map. cbn [length] in *.
    split; [split; [done|repeat split; lia]|]. split; [lia|by eexists].
  - exists (Raise e), log. split.
    { by rewrite (bind_raise _ _ _ _ _ Hrs). }
    split; [exact Hall|]. split; [cbn [length]; lia|].
    intros Hnever.
    destruct Hall as (_ & y & _ & _ & _ & _ & (_ & _ & html & _ & _ & _ & _ & _ & _ & Hv)).
    by destruct (Hnever html e).
Qed.

(** X17: the rows of the bulk scan are in the order of the items: row [i]
    and result [i] hold item [i] as their input. *)
Theorem bulk_analyze_order (bulk : str) :
  ∃ out log,
    run (bulk_analyze bulk) = (out, log) ∧
    ∀ results rows, out = Ret (Some (results, rows)) →
      (λ row, row !! "input") <$> rows
      = (λ x, Some (VStr x)) <$> take 200 (bulk_items bulk) ∧
      (λ r, r !! "input") <$> results
      = (λ x, Some (VStr x)) <$> take 200 (bulk_items bulk).
Proof.
  unfold run, bulk_analyze.
  destruct (bulk_items bulk) as [|x items] eqn:E; [by exists (Ret None), []|].
  destruct (analyze_each_from (take 200 (x :: items)) [])
    as ([rs|e] & log & Hrs & Hall & _).
  2:{ exists (Raise e), log. split; [by rewrite (bind_raise _ _ _ _ _ Hrs)|done]. }
  exists (Ret (Some (rs, map summary_row rs))), log. split.
  - by rewrite (bind_ret _ _ _ _ _ Hrs).
  - intros results rows [= <- <-]. clear Hrs.
    induction Hall as [|y d ys ds Hwf _ IH]; [done|].
    destruct IH as [IH1 IH2]. cbn [map fmap list_fmap].
    destruct (summary_row_of_result y d Hwf) as (_ & Hin & _).
    destruct Hwf as (Hin' & _).
    split; f_equal; done.
Qed.


End BulkFacts.

(** * The further properties on concrete inputs *)

Lemma extract_host_no_credentials_no_port_witness :
  ∃ host, extract_host CPython.urlparse (py "HTTP://User:pw@WWW.Example.co.uk:8080/p") = Ret host ∧
          ("@"%char ∉ host) ∧ (":"%char ∉ host).
Proof.
  apply (extract_host_no_credentials_no_port CPython.urlparse
           (py "HTTP://User:pw@WWW.Example.co.uk:8080/p")
           (ParseResult (py "http") (py "User:pw@WWW.Example.co.uk:8080") (py "/p") [] [] [])).
  run_it.
Defined.

Lemma base_domain_of_labels_witness :
  base_domain (join "." [py "example"; py "com"]) = Ret (py "example.com") ∧
  base_domain (join "." [py "www"; py "example"; py "co"; py "uk"]) = Ret (py "example.co.uk") ∧
  base_domain (join "." [py "www"; py "example"; py "com"]) = Ret (py "example.com").
Proof.
  assert (Hdot : ∀ p : str, forallb (λ c, negb (Ascii.eqb c ".")) p = true → "."%char ∉ p).
  { intros p Hp Hin. rewrite forallb_forall in Hp.
    apply list_elem_of_In, Hp in Hin. by rewrite Ascii.eqb_refl in Hin. }
  split; [|split].
  - destruct (base_domain_of_labels [py "example"; py "com"]) as (H & _ & _).
    + discriminate.
    + repeat constructor; try discriminate; try (apply Hdot; reflexivity).
    + refine (H _). simpl. lia.
  - destruct (base_domain_of_labels [py "www"; py "example"; py "co"; py "uk"]) as (_ & H & _).
    + discriminate.
    + repeat constructor; try discriminate; try (apply Hdot; reflexivity).
    + refine (H [py "www"] (py "example") (py "co") (py "uk") _ _); [reflexivity|].
      refine (bool_decide_unpack _ _); vm_compute; exact I.
  - destruct (base_domain_of_labels [py "www"; py "example"; py "com"]) as (_ & _ & H).
    + discriminate.
    + repeat constructor; try discriminate; try (apply Hdot; reflexivity).
    + refine (H [] (py "www") (py "example") (py "com") _ _); [reflexivity|].
      intros Hin. apply (bool_decide_pack _) in Hin. vm_compute in Hin. exact Hin.
Defined.

Lemma base_domain_subdomain_witness :
  base_domain (py "mail" ++ "."%char :: join "." [py "www"; py "example"; py "com"])
  = base_domain (join "." [py "www"; py "example"; py "com"]).
Proof.
  assert (Hdot : ∀ p : str, forallb (λ c, negb (Ascii.eqb c ".")) p = true → "."%char ∉ p).
  { intros p Hp Hin. rewrite forallb_forall in Hp.
    apply list_elem_of_In, Hp in Hin. by rewrite Ascii.eqb_refl in Hin. }
  apply base_domain_subdomain.
  - simpl. lia.
  - repeat constructor; try discriminate; try (apply Hdot; reflexivity).
Defined.

Lemma label_from_score_monotone_witness :
  (label_rank (label_from_score 45) ≤ label_rank (label_from_score 75))%nat ∧
  label_from_score 45 ∈ [py "LOW_QUALITY"; py "SUSPICIOUS"; py "GOOD_SAFE"].
Proof. apply label_from_score_monotone. lia. Defined.

Lemma word_count_of_visible_text_witness :
  ∃ rr, quick_risk_from_html plain_text (py " Hello   big World ") = Ret rr ∧
        signals rr !! "word_count" = Some (VInt 3) ∧
        signals rr !! "thin_content" = Some (VBool true).
Proof.
  apply (word_count_of_visible_text plain_text (py " Hello   big World ")
           (py "Hello   big World")).
  run_it.
Defined.

Lemma blank_page_risk_witness :
  ∃ rr, quick_risk_from_html plain_text (py "  ") = Ret rr ∧
        risk rr = 20%Z ∧
        signals rr !! "word_count" = Some (VInt 0) ∧
        signals rr !! "thin_content" = Some (VBool true) ∧
        signals rr !! "lorem_ipsum" = Some (VBool false).
Proof. apply (blank_page_risk plain_text (py "  ") []); run_it. Defined.

Lemma ok_result_score_witness :
  ∃ d score,
    run (analyze_target CPython.urlparse
           (net_serving (py "http://example.org/") (py "Lorem ipsum dolor sit amet"))
           plain_text (py "http://example.org"))
    = (Ret d, [py "http://example.org"]) ∧
    d !! "score" = Some (VInt score) ∧ (25 ≤ score ≤ 100)%Z ∧
    d !! "label" = Some (VStr (label_from_score score)).
Proof.
  pose proof (quick_risk_from_html_unfold plain_text
                (py "Lorem ipsum dolor sit amet") (py "Lorem ipsum dolor sit amet")) as Hq.
  cbv zeta in Hq.
  match type of Hq with
  | _ → _ = Ret ?rr =>
      pose proof (analyze_scored CPython.urlparse
                    (net_serving (py "http://example.org/") (py "Lorem ipsum dolor sit amet"))
                    plain_text (py "http://example.org") (py "example.org") (py "example.org")
                    (py "http://example.org/") (py "Lorem ipsum dolor sit amet")
                    (py "example.org") (py "example.org") [py "http://example.org"] rr) as Hd
  end.
  cbv zeta in Hd.
  match type of Hd with
  | _ → _ → _ → _ → _ → _ → _ → _ → _ = (Ret ?d, _) =>
      destruct (ok_result_score CPython.urlparse
                  (net_serving (py "http://example.org/") (py "Lorem ipsum dolor sit amet"))
                  plain_text (py "http://example.org") d [py "http://example.org"])
        as (score & forced & Hs & Hr & Hl & _);
        [apply Hd; first [apply Hq; run_it|run_it]|done|];
        exists d, score; split; [apply Hd; first [apply Hq; run_it|run_it]|]
  end.
  exact (conj Hs (conj Hr Hl)).
Defined.

Lemma fetch_final_first_accepted_witness :
  run (fetch_final CPython.urlparse (net_http_only (py "hello")) (py "example.org"))
  = (Ret (Some (py "http://example.org/"), Some (py "hello"), None),
     [py "https://example.org/"] ++ [py "http://example.org/"]).
Proof.
  apply (fetch_final_first_accepted CPython.urlparse (net_http_only (py "hello"))
           (py "example.org") (py "example.org") [py "https://example.org/"]
           (py "http://example.org/") []
           (Response 200 (py "hello") (py "http://example.org/"))).
  - run_it.
  - run_it.
  - run_it.
  - intros [|i] v Hv; [|destruct i; discriminate Hv]. injection Hv as <-. run_it.
  - run_it.
  - run_it.
Defined.

Lemma fetch_final_none_accepted_witness :
  run (fetch_final CPython.urlparse net_empty_body (py "example.org"))
  = (Ret (None, None, Some (py "Cannot access website (" ++ py "HTTP 200" ++ py ")")),
     [py "https://example.org/"; py "http://example.org/"]).
Proof.
  apply (fetch_final_none_accepted CPython.urlparse net_empty_body
           (py "example.org") (py "example.org")).
  - run_it.
  - run_it.
  - intros i v _. reflexivity.
Defined.

Lemma trusted_final_host_fast_path_witness :
  ∃ d, run (analyze_target CPython.urlparse
              (net_serving (py "https://www.youtube.com/") (py "<html></html>"))
              plain_text (py "example.org"))
       = (Ret d, [py "https://example.org/"]) ∧
       d !! "label" = Some (VStr (py "GOOD_SAFE")) ∧
       d !! "forced_good" = Some (VBool true).
Proof.
  destruct (trusted_final_host_fast_path CPython.urlparse
              (net_serving (py "https://www.youtube.com/") (py "<html></html>"))
              plain_text (py "example.org") (py "example.org")
              (py "https://www.youtube.com/") (py "<html></html>")
              (py "www.youtube.com") (py "youtube.com") [py "https://example.org/"])
    as (d & Hd & _ & Hl & _ & Hf & _); [run_it..| |].
  - right. refine (bool_decide_unpack _ _); vm_compute; exact I.
  - exists d. exact (conj Hd (conj Hl Hf)).
Defined.

Lemma label_from_signals_witness :
  ∃ d label,
    run (analyze_target CPython.urlparse
           (net_serving (py "http://example.org/") (py "Lorem ipsum dolor sit amet"))
           plain_text (py "http://example.org"))
    = (Ret d, [py "http://example.org"]) ∧
    d !! "label" = Some (VStr label) ∧ label = py "LOW_QUALITY".
Proof.
  destruct (label_from_signals CPython.urlparse
              (net_serving (py "http://example.org/") (py "Lorem ipsum dolor sit amet"))
              plain_text (py "http://example.org") (py "example.org")
              (py "http://example.org/") (py "Lorem ipsum dolor sit amet")
              (py "example.org") (py "Lorem ipsum dolor sit amet")
              [py "http://example.org"])
    as (d & label & Hd & Hl & _ & Hlow & _); [run_it..|].
  exists d, label. split; [exact Hd|]. split; [exact Hl|].
  apply Hlow. split; run_it.
Defined.

Lemma bulk_items_of_lines_witness :
  bulk_items (join "010" [py "example.com"; py "   "; py " youtube.com "; py "x.org"])
  = [py "example.com"; py "youtube.com"; py "x.org"].
Proof.
  rewrite bulk_items_of_lines.
  - run_it.
  - repeat constructor.
Defined.

(** Three lines and a blank one give three rows. *)
Lemma bulk_analyze_rows_witness :
  ∃ results rows log,
    run (bulk_analyze CPython.urlparse net_unreachable plain_text
           (join "010" [py "example.com"; py "   "; py " youtube.com "; py "x.org"]))
    = (Ret (Some (results, rows)), log) ∧
    length rows = 3%nat ∧ length results = 3%nat.
Proof.
  destruct (bulk_analyze_rows CPython.urlparse net_unreachable plain_text
              (join "010" [py "example.com"; py "   "; py " youtube.com "; py "x.org"]))
    as (out & log & Hrun & H & _ & Hret).
  destruct Hret as [[[results rows]|] ->]; [intros html e; discriminate| |].
  - destruct H as (_ & Hrows & Hres & _). exists results, rows, log.
    split; [exact Hrun|].
    assert (length (bulk_items (join "010" [py "example.com"; py "   ";
                                           py " youtube.com "; py "x.org"])) = 3%nat)
      as E by run_it.
    rewrite E in Hrows. split; [exact Hrows|]. rewrite Hres. exact Hrows.
  - destruct H as [H _]. exfalso.
    assert (bulk_items (join "010" [py "example.com"; py "   ";
                                   py " youtube.com "; py "x.org"])
            = [py "example.com"; py "youtube.com"; py "x.org"]) as E by run_it.
    rewrite E in H. discriminate H.
Defined.

(** One rejected page ends the scan: the second of two lines is a site that
    serves [<![x]>], and the scan raises after the one request sent for
    it, with no row for the first line either. *)
Example bulk_analyze_aborts :
  run (bulk_analyze CPython.urlparse
         (net_serving (py "https://example.org/") (py "<![x]>")) rejecting_text
         (join "010" [py "youtube.com"; py "example.org"]))
  = (Raise (Exn "ParserRejectedMarkup" (py "unknown status keyword 'x' in marked section")),
     [py "https://example.org/"]).
Proof. run_it. Qed.

Lemma base_domain_idempotent_labels_witness :
  ∃ r, base_domain (py "Shop.Example.co.uk.") = Ret r ∧ base_domain r = Ret r.
Proof.
  apply base_domain_idempotent_labels.
  assert (split "." (strip_char "." (lower (py "Shop.Example.co.uk.")))
          = [py "shop"; py "example"; py "co"; py "uk"]) as -> by run_it.
  repeat constructor; discriminate.
Defined.
